(** * Polling loops of the SageMaker example notebooks

    Two loops are embedded here:

    - [wait_till_delete], the clean-up helper of
      sm_pipeline_with_amazon_forecast.ipynb, which calls a probe until it
      reports that the resource is gone, sleeping a fixed interval between
      attempts and giving up with [TimeoutError] once the accumulated
      interval reaches the bound;
    - the training-status loop of xgboost_parquet_input_training.ipynb,
      which re-reads [TrainingJobStatus] every 60 seconds until it is
      "Completed" or "Failed".

    Both are written with explicit state passing: the remote service and
    everything else a probe can touch is a world [W] threaded through the
    calls, and what the notebook does that can be observed from outside
    (probe calls, sleeps, printed lines) is recorded in a log of events.
    A Python [while] need not terminate, so the loops take fuel and answer
    [None] when it runs out. *)

From Stdlib Require Import ZArith List String Bool Arith Lia.
Import ListNotations.
Local Open Scope Z_scope.

(** ** Python values the loops look at *)

(** Exceptions, by class.  A [botocore.exceptions.ClientError] raised by a
    client call carries the parsed error response; the only field read by
    the notebook is [e.response["Error"]["Code"]]. *)
Inductive exn : Type :=
| ClientError (code : string)
| TimeoutError (msg : string)
| ValueError (msg : string)
| OtherError (cls : string) (msg : string).

(** A call either returns a value or raises. *)
Inductive outcome (A : Type) : Type :=
| Normal (a : A)
| Raised (e : exn).
Arguments Normal {A} a.
Arguments Raised {A} e.

(** What an observer of the notebook sees. *)
Inductive event : Type :=
| EvProbe
| EvSleep (secs : Z)
| EvPrint (line : string).

Definition returns_normally {A : Type} (o : outcome A) : bool :=
  match o with
  | Normal _ => true
  | Raised _ => false
  end.

(** [time.sleep(secs)] for an integer [secs].  The interval is first
    converted to a signed 64-bit count of nanoseconds, which fails with
    [OverflowError] from 9223372037 seconds on, in either direction; an
    interval that converts is then refused with [ValueError] when it is
    negative.  An interval that passes both tests is slept. *)
Definition max_sleep : Z := 9223372036.

Definition overflow_error : exn :=
  OtherError "OverflowError" "timestamp too large to convert to C _PyTime_t".

Definition time_sleep (secs : Z) : outcome unit :=
  if (secs <? - max_sleep) || (max_sleep <? secs)
  then Raised overflow_error
  else if secs <? 0
  then Raised (ValueError "sleep length must be non-negative")
  else Normal tt.

(** ** Observations on a log *)

Definition is_probe (e : event) : bool :=
  match e with
  | EvProbe => true
  | _ => false
  end.

Definition probe_count (l : list event) : nat :=
  List.length (filter is_probe l).

Fixpoint sleeps (l : list event) : list Z :=
  match l with
  | [] => []
  | EvSleep secs :: l' => secs :: sleeps l'
  | _ :: l' => sleeps l'
  end.

Definition total_sleep (l : list event) : Z :=
  fold_right Z.add 0 (sleeps l).

(** The log of [n] attempts that each found the resource still present. *)
Fixpoint polling_rounds (check_time : Z) (n : nat) : list event :=
  match n with
  | O => []
  | S n' => EvProbe :: EvSleep check_time :: polling_rounds check_time n'
  end.

(** ** Probes *)

Section Probes.
Context {W Out : Type}.

(** A zero-argument callable: it may change the world, and returns or
    raises. *)
Definition probe : Type := W -> outcome Out * W.

Variable callback : probe.

(** The world after [n] invocations. *)
Fixpoint world_after (n : nat) (w : W) : W :=
  match n with
  | O => w
  | S n' => world_after n' (snd (callback w))
  end.

(** The outcome of invocation number [n + 1]. *)
Definition nth_invocation (n : nat) (w : W) : outcome Out :=
  fst (callback (world_after n w)).

(** The first [n] invocations all return normally. *)
Fixpoint normal_for (n : nat) (w : W) : bool :=
  match n with
  | O => true
  | S n' =>
      match callback w with
      | (Normal _, w') => normal_for n' w'
      | (Raised _, _) => false
      end
  end.
End Probes.

Arguments probe : clear implicits.

(** ** [wait_till_delete]

    [check_time] and [timeout] are Python integers ([timeout] may also be
    [None]); the notebook only ever passes the defaults. *)

Definition not_found_code : string := "ResourceNotFoundException".
Definition success_line : string := "Successful delete".
Definition timeout_message : string := "Forecast resource deletion timed-out.".

Section WaitTillDelete.
Context {W Out : Type}.

(** The locals of one call, together with the world and the log. *)
Record poll_session : Type := mkSession {
  elapsed_time : Z;
  world : W;
  log : list event
}.

(** One pass through the [while]: either control comes back to the loop
    test, or the function is left with a result. *)
Inductive progress : Type :=
| Continue (s : poll_session)
| Finished (r : outcome unit) (w : W) (l : list event).

Variable callback : probe W Out.
Variable check_time : Z.
Variable timeout : option Z.

(** [timeout is None or elapsed_time < timeout] *)
Definition loop_guard (elapsed : Z) : bool :=
  match timeout with
  | None => true
  | Some t => elapsed <? t
  end.

Definition iteration (s : poll_session) : progress :=
  if loop_guard (elapsed_time s) then
    match callback (world s) with
    | (Raised (ClientError code), w') =>
        if String.eqb code not_found_code
        then Finished (Normal tt) w' (log s ++ [EvProbe; EvPrint success_line])
        else Finished (Raised (ClientError code)) w' (log s ++ [EvProbe])
    | (Raised e, w') => Finished (Raised e) w' (log s ++ [EvProbe])
    | (Normal _, w') =>
        match time_sleep check_time with
        | Raised e => Finished (Raised e) w' (log s ++ [EvProbe])
        | Normal _ =>
            Continue {| elapsed_time := elapsed_time s + check_time;
                        world := w';
                        log := log s ++ [EvProbe; EvSleep check_time] |}
        end
    end
  else Finished (Raised (TimeoutError timeout_message)) (world s) (log s).

Fixpoint while_loop (fuel : nat) (s : poll_session)
  : option (outcome unit * W * list event) :=
  match fuel with
  | O => None
  | S fuel' =>
      match iteration s with
      | Continue s' => while_loop fuel' s'
      | Finished r w l => Some (r, w, l)
      end
  end.

(** The session at the top of pass [n + 1], that is after [n] completed
    passes; [None] when the function was left before. *)
Fixpoint session_at (n : nat) (s : poll_session) : option poll_session :=
  match n with
  | O => Some s
  | S n' =>
      match iteration s with
      | Continue s' => session_at n' s'
      | Finished _ _ _ => None
      end
  end.

Definition initial_session (w : W) : poll_session :=
  {| elapsed_time := 0; world := w; log := [] |}.

Definition wait_till_delete (fuel : nat) (w : W)
  : option (outcome unit * W * list event) :=
  while_loop fuel (initial_session w).
End WaitTillDelete.

Arguments poll_session : clear implicits.
Arguments progress : clear implicits.

(** The keyword defaults of [def wait_till_delete(callback, check_time=5,
    timeout=100)].  An omitted argument is [None]; passing [timeout=None]
    is [Some None]. *)
Definition check_time_default : Z := 5.
Definition timeout_default : option Z := Some 100.

Definition wait_till_delete_call {W Out : Type} (callback : probe W Out)
    (check_time : option Z) (timeout : option (option Z))
    (fuel : nat) (w : W) : option (outcome unit * W * list event) :=
  wait_till_delete callback
    (match check_time with Some c => c | None => check_time_default end)
    (match timeout with Some t => t | None => timeout_default end)
    fuel w.

(** ** Two calls in a row

    Two clean-up cells of the notebook, run one after the other: whatever
    the first call did, the second starts from the world the first left.
    Each call has its own result and its own log. *)

Definition two_calls {W Out1 Out2 : Type}
    (callback1 : probe W Out1) (check_time1 : Z) (timeout1 : option Z)
    (fuel1 : nat)
    (callback2 : probe W Out2) (check_time2 : Z) (timeout2 : option Z)
    (fuel2 : nat)
    (w : W)
  : option ((outcome unit * list event) * (outcome unit * list event) * W) :=
  match wait_till_delete callback1 check_time1 timeout1 fuel1 w with
  | None => None
  | Some (r1, w1, l1) =>
      match wait_till_delete callback2 check_time2 timeout2 fuel2 w1 with
      | None => None
      | Some (r2, w2, l2) => Some ((r1, l1), (r2, l2), w2)
      end
  end.

(** Probes that watch different resources: each one reads and writes its own
    half of the world. *)
Section IndependentProbes.
Context {W1 W2 Out : Type}.

Definition on_first (cb : probe W1 Out) : probe (W1 * W2) Out :=
  fun w => let (r, w1') := cb (fst w) in (r, (w1', snd w)).

Definition on_second (cb : probe W2 Out) : probe (W1 * W2) Out :=
  fun w => let (r, w2') := cb (snd w) in (r, (fst w, w2')).

(** The session of a call on one half of the world, seen in the whole. *)
Definition in_first (w2 : W2) (s : poll_session W1)
  : poll_session (W1 * W2) :=
  {| elapsed_time := elapsed_time s; world := (world s, w2); log := log s |}.

Definition in_second (w1 : W1) (s : poll_session W2)
  : poll_session (W1 * W2) :=
  {| elapsed_time := elapsed_time s; world := (w1, world s); log := log s |}.
End IndependentProbes.

(** ** Probes for tests

    A probe that follows a script: the world is the number of invocations
    made so far, and invocation [n + 1] answers with entry [n] of the
    script (normally, past its end). *)
Definition scripted (script : list (outcome unit)) : probe nat unit :=
  fun n => (nth n script (Normal tt), S n).

Definition not_found : exn := ClientError not_found_code.

(** Present for [k - 1] invocations, gone at invocation [k]. *)
Definition gone_at (k : nat) : probe nat unit :=
  scripted (repeat (Normal tt) (k - 1) ++ [Raised not_found]).

(** A probe that always finds the resource, and takes [cost] seconds of
    wall-clock time per invocation; the world is the wall clock. *)
Definition slow_probe (cost : Z) : probe Z unit :=
  fun clock => (Normal tt, clock + cost).

(** ** The training-status loop of the XGBoost notebook *)

Definition poll_interval : Z := 60.

(** [status != "Completed" and status != "Failed"] *)
Definition still_running (status : string) : bool :=
  negb (String.eqb status "Completed") && negb (String.eqb status "Failed").

(** What the loop writes to the log for the statuses it has read: the first
    is read and printed before the loop, every later one after a sleep. *)
Definition status_round (status : string) : list event :=
  [EvSleep poll_interval; EvProbe; EvPrint status].

Definition status_log (statuses : list string) : list event :=
  match statuses with
  | [] => []
  | s :: rest => EvProbe :: EvPrint s :: flat_map status_round rest
  end.

Section TrainingStatus.
Context {W : Type}.

(** [client.describe_training_job(TrainingJobName=job_name)["TrainingJobStatus"]] *)
Variable describe_status : probe W string.

Fixpoint status_loop (fuel : nat) (status : string) (w : W) (l : list event)
  : option (outcome unit * W * list event) :=
  match fuel with
  | O => None
  | S fuel' =>
      if still_running status then
        match time_sleep poll_interval with
        | Raised e => Some (Raised e, w, l)
        | Normal _ =>
            match describe_status w with
            | (Raised e, w') =>
                Some (Raised e, w', l ++ [EvSleep poll_interval; EvProbe])
            | (Normal status', w') =>
                status_loop fuel' status' w' (l ++ status_round status')
            end
        end
      else Some (Normal tt, w, l)
  end.

Definition poll_training_status (fuel : nat) (w : W)
  : option (outcome unit * W * list event) :=
  match describe_status w with
  | (Raised e, w') => Some (Raised e, w', [EvProbe])
  | (Normal status, w') => status_loop fuel status w' [EvProbe; EvPrint status]
  end.

(** The statuses returned by the first [n] reads, when none of them
    raises. *)
Fixpoint statuses_read (n : nat) (w : W) : option (list string) :=
  match n with
  | O => Some []
  | S n' =>
      match describe_status w with
      | (Raised _, _) => None
      | (Normal status, w') =>
          match statuses_read n' w' with
          | None => None
          | Some rest => Some (status :: rest)
          end
      end
  end.

(** The first [n] reads all return a status that keeps the loop going. *)
Fixpoint running_for (n : nat) (w : W) : bool :=
  match n with
  | O => true
  | S n' =>
      match describe_status w with
      | (Normal status, w') => still_running status && running_for n' w'
      | (Raised _, _) => false
      end
  end.
End TrainingStatus.

(** A training job that answers with the given statuses in turn and stays
    "InProgress" after them. *)
Definition job_reporting (statuses : list string) : probe nat string :=
  fun n => (Normal (nth n statuses "InProgress"%string), S n).

(** [is_not_found e]: [e] is the one failure [wait_till_delete] reads as
    "the resource is gone". *)
Definition is_not_found (e : exn) : bool :=
  match e with
  | ClientError code => String.eqb code not_found_code
  | _ => false
  end.

(** What [wait_till_delete] answers and logs when the probe raises [e]. *)
Definition answer_to (e : exn) : outcome unit :=
  if is_not_found e then Normal tt else Raised e.

Definition log_of_raise (e : exn) : list event :=
  if is_not_found e then [EvProbe; EvPrint success_line] else [EvProbe].

(** The number of passes a bound [T] leaves room for when every pass adds
    [check_time > 0]: the least [n] with [T <= n * check_time]. *)
Definition passes_within (check_time T : Z) : nat :=
  if T <=? 0 then 0%nat else Z.to_nat ((T + check_time - 1) / check_time).

(** The session [n] passes after [s], when each of them found the resource
    present and slept. *)
Definition advanced {W Out : Type} (callback : probe W Out) (check_time : Z)
    (n : nat) (s : poll_session W) : poll_session W :=
  {| elapsed_time := elapsed_time s + Z.of_nat n * check_time;
     world := world_after callback n (world s);
     log := log s ++ polling_rounds check_time n |}.

(** The loop test succeeds at the top of each of the next [n] passes, when
    each of them adds [check_time]. *)
Definition open_for (check_time : Z) (timeout : option Z) (n : nat)
    (elapsed : Z) : Prop :=
  forall i, (i < n)%nat ->
    loop_guard timeout (elapsed + Z.of_nat i * check_time) = true.

From Stdlib Require Import Ascii Permutation.

(** ** The clean-up cells

    The cells after [wait_till_delete] call it on the Forecast resources the
    pipeline created, with the defaults.  The ARNs come from
    model_parameters.json, loaded as the dict [model_params]; the probe is a
    lambda that looks the ARN up and asks the service to delete it. *)

(** [d[key]] on a missing key. *)
Definition key_error (key : string) : exn := OtherError "KeyError" key.

(** The number of "Successful delete" lines in a log. *)
Definition is_success_line (e : event) : bool :=
  match e with
  | EvPrint line => String.eqb line success_line
  | _ => false
  end.

Definition success_lines (l : list event) : nat :=
  List.length (filter is_success_line l).

Section CleanUp.
Context {W Out : Type}.

(** The four delete operations of the [forecast] client used here, each
    taking the ARN of the resource. *)
Record forecast_client : Type := mkForecast {
  delete_predictor : string -> probe W Out;
  delete_dataset_import_job : string -> probe W Out;
  delete_dataset : string -> probe W Out;
  delete_dataset_group : string -> probe W Out
}.

Variable model_params : string -> option string.

(** [lambda: op(Arn=model_params[key])]: the lookup is made at each call of
    the lambda, before the request; a missing key raises without a
    request. *)
Definition request (op : string -> probe W Out) (key : string) : probe W Out :=
  fun w =>
    match model_params key with
    | Some arn => op arn w
    | None => (Raised (key_error key), w)
    end.

(** [for arn in keys: wait_till_delete(lambda: op(Arn=model_params[arn]))]:
    an exception leaves the loop. *)
Fixpoint wait_for_each (op : string -> probe W Out) (keys : list string)
    (fuel : nat) (w : W) : option (outcome unit * W * list event) :=
  match keys with
  | [] => Some (Normal tt, w, [])
  | key :: rest =>
      match wait_till_delete_call (request op key) None None fuel w with
      | None => None
      | Some (Raised e, w', l) => Some (Raised e, w', l)
      | Some (Normal _, w', l) =>
          match wait_for_each op rest fuel w' with
          | None => None
          | Some (r, w'', l') => Some (r, w'', l ++ l')
          end
      end
  end.

Variable forecast : forecast_client.

Definition delete_predictor_cell (fuel : nat) (w : W)
  : option (outcome unit * W * list event) :=
  wait_till_delete_call
    (request (delete_predictor forecast) "forecast_arn_predictor")
    None None fuel w.

Definition delete_import_jobs_cell (fuel : nat) (w : W)
  : option (outcome unit * W * list event) :=
  wait_for_each (delete_dataset_import_job forecast)
    ["target_import_job_arn"; "related_import_job_arn"]%string fuel w.

Definition delete_datasets_cell (fuel : nat) (w : W)
  : option (outcome unit * W * list event) :=
  wait_for_each (delete_dataset forecast)
    ["target_dataset_arn"; "related_dataset_arn"]%string fuel w.

Definition delete_dataset_group_cell (fuel : nat) (w : W)
  : option (outcome unit * W * list event) :=
  wait_till_delete_call
    (request (delete_dataset_group forecast) "dataset_group_arn")
    None None fuel w.
End CleanUp.

Arguments forecast_client : clear implicits.

(** A service for tests: the world is the list of ARNs it has been asked to
    delete, latest first; an ARN is found (the request returns) the first
    [lag] times it is asked for and is gone after that. *)
Definition asked (arn : string) (w : list string) : nat :=
  List.length (filter (String.eqb arn) w).

Definition lagging_delete (lag : nat) (arn : string)
  : probe (list string) unit :=
  fun w =>
    (if Nat.ltb (asked arn w) lag then Normal tt else Raised not_found,
     arn :: w).

(** ** Strings: ARNs and image URIs *)

(** [s.split(sep)] for a separator of one character. *)
Fixpoint split_on (sep : ascii) (s : string) : list string :=
  match s with
  | EmptyString => [EmptyString]
  | String c rest =>
      if Ascii.eqb c sep then EmptyString :: split_on sep rest
      else
        match split_on sep rest with
        | field :: fields => String c field :: fields
        | [] => [String c EmptyString]
        end
  end.

(** The number of occurrences of a character. *)
Fixpoint count_char (sep : ascii) (s : string) : nat :=
  match s with
  | EmptyString => O
  | String c rest =>
      if Ascii.eqb c sep then S (count_char sep rest) else count_char sep rest
  end.

(** [l[i]] for [i >= 0]. *)
Definition index_error : exn :=
  OtherError "IndexError" "list index out of range".

Definition item {A : Type} (l : list A) (i : nat) : outcome A :=
  match nth_error l i with
  | Some x => Normal x
  | None => Raised index_error
  end.

(** [image_acc_id = image_uri.split(".")[0]] *)
Definition image_acc_id (image_uri : string) : outcome string :=
  item (split_on "." image_uri) 0.

(** [account_id = role_arn.split(":")[4]] *)
Definition account_id (role_arn : string) : outcome string :=
  item (split_on ":" role_arn) 4.

Definition ecr_repository_name : string := "sagemaker-sklearn-botocore-updated".
Definition tag : string := "latest".

(** ["{0}.dkr.ecr.{1}.amazonaws.com/{2}:{3}".format(account_id, region,
    ecr_repository_name, tag)], after [account_id] has been computed. *)
Definition container_image_uri (role_arn region : string) : outcome string :=
  match account_id role_arn with
  | Raised e => Raised e
  | Normal account =>
      Normal (account ++ ".dkr.ecr." ++ region ++ ".amazonaws.com/"
                ++ ecr_repository_name ++ ":" ++ tag)%string
  end.

(** The shell cell that builds and pushes the image:
    [fullname="${account}.dkr.ecr.${region}.amazonaws.com/${repo_name}:latest"]. *)
Definition repo_name : string := "sagemaker-sklearn-botocore-updated".

Definition fullname (account region : string) : string :=
  (account ++ ".dkr.ecr." ++ region ++ ".amazonaws.com/"
     ++ repo_name ++ ":latest")%string.

(** [training_job_name = ...["Arn"].split("/")[1]] *)
Definition training_job_name (arn : string) : outcome string :=
  item (split_on "/" arn) 1.

(** ** Columns of the Abalone data *)

(** [l[-1:]] and [l[:-1]] *)
Definition last_slice {A : Type} (l : list A) : list A :=
  skipn (List.length l - 1) l.

Definition init_slice {A : Type} (l : list A) : list A :=
  firstn (List.length l - 1) l.

(** [feature_names[-1:] + feature_names[:-1]], the columns selected from
    the data frame, in this order. *)
Definition label_first {A : Type} (names : list A) : list A :=
  last_slice names ++ init_slice names.

Definition feature_names : list string :=
  ["Sex"; "Length"; "Diameter"; "Height"; "Whole weight"; "Shucked weight";
   "Viscera weight"; "Shell weight"; "Rings"]%string.

(* ================================================================== *)
(** * Proofs *)

(** The cases of the [except] clause on what the probe raised: a
    [ClientError] with the expected code, one with another code, and the
    other classes. *)
Ltac except_cases e :=
  destruct e as [?code|?msg|?msg|?cls ?msg];
  [ destruct (String.eqb code not_found_code) eqn:?Hcode | | | ].

(** ** Logs *)

Lemma probe_count_app (l1 l2 : list event) :
  probe_count (l1 ++ l2) = (probe_count l1 + probe_count l2)%nat.
Proof.
  unfold probe_count. now rewrite filter_app, length_app.
Qed.

Lemma sleeps_app (l1 l2 : list event) :
  sleeps (l1 ++ l2) = sleeps l1 ++ sleeps l2.
Proof.
  induction l1 as [|[|secs|line] l1 IH]; simpl; auto.
  now rewrite IH.
Qed.

Lemma sum_repeat (c : Z) (n : nat) :
  fold_right Z.add 0 (repeat c n) = Z.of_nat n * c.
Proof.
  induction n as [|n IH].
  - reflexivity.
  - cbn [repeat fold_right]. rewrite IH. lia.
Qed.

Lemma probe_count_rounds (c : Z) (n : nat) :
  probe_count (polling_rounds c n) = n.
Proof.
  induction n as [|n IH]; [reflexivity|].
  unfold probe_count in *. simpl. now rewrite IH.
Qed.

Lemma sleeps_rounds (c : Z) (n : nat) :
  sleeps (polling_rounds c n) = repeat c n.
Proof.
  induction n as [|n IH]; simpl; [reflexivity | now rewrite IH].
Qed.

Lemma total_sleep_rounds (c : Z) (n : nat) :
  total_sleep (polling_rounds c n) = Z.of_nat n * c.
Proof.
  unfold total_sleep. now rewrite sleeps_rounds, sum_repeat.
Qed.


(** ** Probes *)

Section ProbeFacts.
Context {W Out : Type}.
Variable callback : probe W Out.

Lemma normal_for_step (n : nat) (w : W) :
  normal_for callback (S n) w = true ->
  exists out, callback w = (Normal out, snd (callback w)) /\
              normal_for callback n (snd (callback w)) = true.
Proof.
  simpl. destruct (callback w) as [[out|e] w']; [|discriminate].
  intros H. exists out. auto.
Qed.


Lemma world_after_S (n : nat) (w : W) :
  world_after callback (S n) w =
  snd (callback (world_after callback n w)).
Proof.
  revert w. induction n as [|n IH]; intros w; [reflexivity|].
  change (world_after callback (S (S n)) w)
    with (world_after callback (S n) (snd (callback w))).
  now rewrite IH.
Qed.

Lemma normal_for_nth (n : nat) (w : W) :
  normal_for callback n w = true ->
  forall i, (i < n)%nat ->
    returns_normally (nth_invocation callback i w) = true.
Proof.
  revert w. induction n as [|n IH]; intros w Hn i Hi; [lia|].
  destruct (normal_for_step _ _ Hn) as [out [Hcb Hrest]].
  destruct i as [|i].
  - unfold nth_invocation. simpl. now rewrite Hcb.
  - unfold nth_invocation. simpl.
    apply (IH _ Hrest i). lia.
Qed.
End ProbeFacts.

(** ** Sleeping *)

Lemma time_sleep_accepts (secs : Z) :
  0 <= secs <= max_sleep -> time_sleep secs = Normal tt.
Proof.
  intros [Hlo Hhi]. unfold time_sleep.
  replace (secs <? - max_sleep) with false
    by (symmetry; apply Z.ltb_ge; unfold max_sleep in *; lia).
  replace (max_sleep <? secs) with false by (symmetry; now apply Z.ltb_ge).
  replace (secs <? 0) with false by (symmetry; now apply Z.ltb_ge).
  reflexivity.
Qed.

Lemma time_sleep_accepted (secs : Z) (u : unit) :
  time_sleep secs = Normal u -> 0 <= secs <= max_sleep.
Proof.
  unfold time_sleep.
  destruct (secs <? - max_sleep) eqn:E1; [discriminate|].
  destruct (max_sleep <? secs) eqn:E2; [discriminate|].
  destruct (secs <? 0) eqn:E3; [discriminate|].
  intros _. apply Z.ltb_ge in E2, E3. split; assumption.
Qed.

Lemma time_sleep_refuses (secs : Z) :
  secs < 0 \/ max_sleep < secs ->
  time_sleep secs =
  Raised (if (secs <? - max_sleep) || (max_sleep <? secs)
          then overflow_error
          else ValueError "sleep length must be non-negative").
Proof.
  intros Hbad. unfold time_sleep.
  destruct ((secs <? - max_sleep) || (max_sleep <? secs)) eqn:E;
    [reflexivity|].
  apply orb_false_iff in E. destruct E as [_ E2]. apply Z.ltb_ge in E2.
  destruct Hbad as [Hneg|Hbig]; [|lia].
  apply Z.ltb_lt in Hneg. now rewrite Hneg.
Qed.

(** ** One pass of the loop *)

Section LoopFacts.
Context {W Out : Type}.
Variable callback : probe W Out.
Variable check_time : Z.
Variable timeout : option Z.

Let guard := loop_guard timeout.
Let pass := iteration callback check_time timeout.
Let run := while_loop callback check_time timeout.
Let at_pass := session_at callback check_time timeout.
Let adv := advanced callback check_time.

Lemma iteration_continue (s : poll_session W) (out : Out) (w' : W) :
  guard (elapsed_time s) = true ->
  callback (world s) = (Normal out, w') ->
  0 <= check_time <= max_sleep ->
  pass s = Continue (adv 1%nat s).
Proof.
  intros Hg Hcb Hct. unfold pass, iteration, adv, advanced.
  fold guard. rewrite Hg, Hcb. rewrite (time_sleep_accepts _ Hct).
  cbn [world_after polling_rounds]. rewrite Hcb. cbn [snd].
  change (Z.of_nat 1) with 1. now rewrite Z.mul_1_l.
Qed.

Lemma iteration_raise (s : poll_session W) (e : exn) (w' : W) :
  guard (elapsed_time s) = true ->
  callback (world s) = (Raised e, w') ->
  pass s = Finished (answer_to e) w' (log s ++ log_of_raise e).
Proof.
  intros Hg Hcb. unfold pass, iteration. fold guard. rewrite Hg, Hcb.
  unfold answer_to, log_of_raise.
  destruct e as [code|msg|msg|cls msg]; simpl; try reflexivity.
  destruct (String.eqb code not_found_code); reflexivity.
Qed.

Lemma iteration_timeout (s : poll_session W) :
  guard (elapsed_time s) = false ->
  pass s = Finished (Raised (TimeoutError timeout_message)) (world s) (log s).
Proof.
  intros Hg. unfold pass, iteration. fold guard. now rewrite Hg.
Qed.

Lemma iteration_continue_inv (s s' : poll_session W) :
  pass s = Continue s' ->
  guard (elapsed_time s) = true /\ 0 <= check_time <= max_sleep /\
  normal_for callback 1 (world s) = true /\ s' = adv 1%nat s.
Proof.
  unfold pass, iteration, adv, advanced. fold guard.
  cbn [world_after polling_rounds normal_for].
  destruct (guard (elapsed_time s)); [|discriminate].
  destruct (callback (world s)) as [[out|e] w'] eqn:Hcb.
  - destruct (time_sleep check_time) as [u|e] eqn:E; [|discriminate].
    apply time_sleep_accepted in E. intros H. injection H as <-.
    split; [reflexivity|]. split; [exact E|]. split; [reflexivity|].
    cbn [snd]. change (Z.of_nat 1) with 1. now rewrite Z.mul_1_l.
  - except_cases e; discriminate.
Qed.

(** ** Several passes *)

Lemma advanced_0 (s : poll_session W) : adv 0%nat s = s.
Proof.
  destruct s as [e w l]. unfold adv, advanced. simpl.
  now rewrite Z.add_0_r, app_nil_r.
Qed.

Lemma advanced_S (n : nat) (s : poll_session W) :
  adv n (adv 1%nat s) = adv (S n) s.
Proof.
  unfold adv, advanced. cbn [elapsed_time world log].
  f_equal.
  - lia.
  - rewrite <- app_assoc. reflexivity.
Qed.

Lemma open_for_tail (n : nat) (elapsed : Z) :
  open_for check_time timeout (S n) elapsed ->
  open_for check_time timeout n (elapsed + Z.of_nat 1 * check_time).
Proof.
  intros H i Hi. specialize (H (S i) ltac:(lia)).
  rewrite <- H. f_equal. lia.
Qed.

Lemma session_at_advanced (n : nat) (s : poll_session W) :
  0 <= check_time <= max_sleep ->
  normal_for callback n (world s) = true ->
  open_for check_time timeout n (elapsed_time s) ->
  at_pass n s = Some (adv n s).
Proof.
  intros Hct. revert s. induction n as [|n IH]; intros s Hn Hg.
  - simpl. now rewrite advanced_0.
  - destruct (normal_for_step _ _ _ Hn) as [out [Hcb Hrest]].
    assert (Hg0 : guard (elapsed_time s) = true).
    { unfold guard. rewrite <- (Hg 0%nat ltac:(lia)). f_equal. lia. }
    unfold at_pass. cbn [session_at]. fold pass at_pass.
    rewrite (iteration_continue s out _ Hg0 Hcb Hct).
    rewrite <- (advanced_S n s). apply IH.
    + cbn [adv advanced world world_after]. exact Hrest.
    + apply open_for_tail in Hg. exact Hg.
Qed.

Lemma while_loop_advanced (n fuel : nat) (s : poll_session W) :
  0 <= check_time <= max_sleep ->
  normal_for callback n (world s) = true ->
  open_for check_time timeout n (elapsed_time s) ->
  run (n + fuel)%nat s = run fuel (adv n s).
Proof.
  intros Hct. revert s. induction n as [|n IH]; intros s Hn Hg.
  - simpl. now rewrite advanced_0.
  - destruct (normal_for_step _ _ _ Hn) as [out [Hcb Hrest]].
    assert (Hg0 : guard (elapsed_time s) = true).
    { unfold guard. rewrite <- (Hg 0%nat ltac:(lia)). f_equal. lia. }
    unfold run. cbn [Nat.add while_loop]. fold pass run.
    rewrite (iteration_continue s out _ Hg0 Hcb Hct).
    rewrite <- (advanced_S n s). apply IH.
    + cbn [adv advanced world world_after]. exact Hrest.
    + apply open_for_tail in Hg. exact Hg.
Qed.

Lemma session_at_inv (n : nat) (s st : poll_session W) :
  at_pass n s = Some st ->
  st = adv n s /\ normal_for callback n (world s) = true /\
  open_for check_time timeout n (elapsed_time s) /\
  (n = 0%nat \/ 0 <= check_time <= max_sleep).
Proof.
  revert s st. induction n as [|n IH]; intros s st H.
  - simpl in H. injection H as <-. rewrite advanced_0.
    repeat split; auto. intros i Hi. lia.
  - unfold at_pass in H. cbn [session_at] in H. fold pass at_pass in H.
    destruct (pass s) as [s1|r w l] eqn:Hp; [|discriminate].
    destruct (iteration_continue_inv _ _ Hp) as [Hg0 [Hct [Hn1 ->]]].
    destruct (IH _ _ H) as [-> [Hn [Hg _]]].
    rewrite advanced_S. split; [reflexivity|].
    split; [|split; [|right; exact Hct]].
    + cbn [adv advanced world world_after] in Hn. cbn [normal_for] in *.
      destruct (callback (world s)) as [[out|e] w']; [|discriminate].
      exact Hn.
    + intros [|i] Hi.
      * unfold guard in Hg0. rewrite <- Hg0. f_equal. lia.
      * rewrite <- (Hg i ltac:(lia)). f_equal.
        cbn [adv advanced elapsed_time]. lia.
Qed.

Lemma while_loop_stops (fuel : nat) (s : poll_session W) r w l :
  run fuel s = Some (r, w, l) ->
  exists n st, (n < fuel)%nat /\ at_pass n s = Some st /\
               pass st = Finished r w l.
Proof.
  revert s. induction fuel as [|fuel IH]; intros s H; [discriminate|].
  unfold run in H. cbn [while_loop] in H. fold pass run in H.
  destruct (pass s) as [s1|r1 w1 l1] eqn:Hp.
  - destruct (IH _ H) as [n [st [Hlt [Hat Hfin]]]].
    exists (S n), st. split; [lia|]. split; [|exact Hfin].
    unfold at_pass. cbn [session_at]. fold pass at_pass. now rewrite Hp.
  - injection H as -> -> ->. exists 0%nat, s. repeat split; auto. lia.
Qed.

Lemma while_loop_more_fuel (fuel fuel' : nat) (s : poll_session W) x :
  run fuel s = Some x -> (fuel <= fuel')%nat -> run fuel' s = Some x.
Proof.
  revert fuel' s. induction fuel as [|fuel IH]; intros fuel' s H Hle;
    [discriminate|].
  destruct fuel' as [|fuel']; [lia|].
  unfold run in H |- *. cbn [while_loop] in H |- *. fold pass run in H |- *.
  destruct (pass s) as [s1|r1 w1 l1]; [|exact H].
  apply IH; [exact H | lia].
Qed.
End LoopFacts.

(** ** The whole call *)

Lemma loop_guard_earlier (timeout : option Z) (a b : Z) :
  a <= b -> loop_guard timeout b = true -> loop_guard timeout a = true.
Proof.
  unfold loop_guard. destruct timeout as [t|]; [|reflexivity].
  rewrite !Z.ltb_lt. lia.
Qed.

Lemma open_for_upto (check_time : Z) (timeout : option Z)
    (n : nat) (bound : Z) :
  0 <= check_time ->
  (n = 0%nat \/ (Z.of_nat n - 1) * check_time <= bound) ->
  loop_guard timeout bound = true ->
  open_for check_time timeout n 0.
Proof.
  intros Hct Hn Hg i Hi.
  apply (loop_guard_earlier _ _ bound); [|exact Hg].
  destruct Hn as [->|Hn]; [lia|]. nia.
Qed.

Section WholeCall.
Context {W Out : Type}.
Variable callback : probe W Out.
Variable check_time : Z.
Variable timeout : option Z.


(** The probe answers normally [n] times and the accumulated interval has
    then reached the bound: the call ends with the timeout. *)
Lemma wait_reaches_timeout (T : Z) (n : nat) (w : W) :
  timeout = Some T ->
  (n = 0%nat \/ 0 <= check_time <= max_sleep) ->
  normal_for callback n w = true ->
  T <= Z.of_nat n * check_time ->
  (n = 0%nat \/ (Z.of_nat n - 1) * check_time < T) ->
  forall fuel, (n < fuel)%nat ->
    wait_till_delete callback check_time timeout fuel w =
    Some (Raised (TimeoutError timeout_message), world_after callback n w,
          polling_rounds check_time n).
Proof.
  intros -> Hct Hn Hreach Hbefore fuel Hfuel.
  replace fuel with (n + S (fuel - S n))%nat by lia.
  unfold wait_till_delete.
  assert (Hadv :
    while_loop callback check_time (Some T) (n + S (fuel - S n))
      (initial_session w) =
    while_loop callback check_time (Some T) (S (fuel - S n))
      (advanced callback check_time n (initial_session w))).
  { destruct Hct as [->|Hct].
    - cbn [Nat.add]. now rewrite advanced_0.
    - apply while_loop_advanced; auto.
      destruct Hbefore as [->|Hb]; [intros i Hi; lia|].
      apply (open_for_upto _ _ _ ((Z.of_nat n - 1) * check_time)).
      + apply Hct.
      + right. lia.
      + unfold loop_guard. now apply Z.ltb_lt. }
  rewrite Hadv. cbn [while_loop]. rewrite iteration_timeout.
  - reflexivity.
  - cbn [advanced initial_session elapsed_time loop_guard].
    apply Z.ltb_ge. lia.
Qed.
End WholeCall.

Lemma passes_within_reaches (check_time T : Z) :
  0 < check_time -> T <= Z.of_nat (passes_within check_time T) * check_time.
Proof.
  intros Hct. unfold passes_within.
  destruct (T <=? 0) eqn:E.
  - apply Z.leb_le in E. simpl. lia.
  - apply Z.leb_gt in E.
    pose proof (Z.div_mod (T + check_time - 1) check_time ltac:(lia)) as Hdm.
    pose proof (Z.mod_pos_bound (T + check_time - 1) check_time Hct) as Hr.
    assert (0 <= (T + check_time - 1) / check_time)
      by (apply Z.div_pos; lia).
    rewrite Z2Nat.id by assumption. nia.
Qed.

Lemma passes_within_least (check_time T : Z) (m : nat) :
  0 < check_time -> (m < passes_within check_time T)%nat ->
  Z.of_nat m * check_time < T.
Proof.
  intros Hct. unfold passes_within.
  destruct (T <=? 0) eqn:E; [lia|].
  apply Z.leb_gt in E.
  pose proof (Z.div_mod (T + check_time - 1) check_time ltac:(lia)) as Hdm.
  pose proof (Z.mod_pos_bound (T + check_time - 1) check_time Hct) as Hr.
  assert (0 <= (T + check_time - 1) / check_time)
    by (apply Z.div_pos; lia).
  intros Hm. apply Nat2Z.inj_lt in Hm. rewrite Z2Nat.id in Hm by assumption.
  nia.
Qed.

(** ** Probes for tests *)


(* ================================================================== *)
(** * The wait returns when the probe reports the resource gone *)




(* ================================================================== *)
(** * The wait gives up when the bound is reached *)




(* ================================================================== *)
(** * Failures of the probe *)


Lemma is_not_found_exactly (e : exn) :
  is_not_found e = true <-> e = ClientError "ResourceNotFoundException".
Proof.
  split.
  - destruct e as [code|msg|msg|cls msg]; simpl; try discriminate.
    intros H. apply String.eqb_eq in H. now subst.
  - intros ->. reflexivity.
Qed.

(** C3, as amended.  If the first invocation of the probe raises a failure
    other than not-found, and the loop is entered at all ([timeout] is
    [None] or positive), [wait_till_delete] raises that same failure: one
    probe invocation, no sleep, no second attempt. *)
Theorem wait_propagates_first_failure {W Out : Type}
    (callback : probe W Out) (check_time : Z) (timeout : option Z)
    (e : exn) (w : W) :
  nth_invocation callback 0 w = Raised e ->
  is_not_found e = false ->
  match timeout with
  | None => True
  | Some T => 0 < T
  end ->
  forall fuel, (1 <= fuel)%nat ->
  exists l,
    wait_till_delete callback check_time timeout fuel w =
      Some (Raised e, world_after callback 1 w, l) /\
    l = [EvProbe] /\ probe_count l = 1%nat /\ sleeps l = [].
Proof.
  intros He Hnf Hto fuel Hfuel.
  exists [EvProbe]. split; [|repeat split].
  destruct fuel as [|fuel]; [lia|].
  unfold wait_till_delete. cbn [while_loop].
  rewrite (iteration_raise callback check_time timeout _ e
             (world_after callback 1 w)).
  - unfold answer_to, log_of_raise. rewrite Hnf. reflexivity.
  - cbn [initial_session elapsed_time]. unfold loop_guard.
    destruct timeout as [T|]; [|reflexivity]. now apply Z.ltb_lt.
  - cbn [initial_session world world_after].
    unfold nth_invocation in He. cbn [world_after] in He.
    destruct (callback w) as [o w']. simpl in *. now subst.
Qed.

(** A probe that is refused access at its first invocation. *)
Lemma wait_propagates_first_failure_witness :
  exists l,
    wait_till_delete
      (scripted [Raised (ClientError "AccessDeniedException")])
      5 (Some 100) 1 0%nat =
      Some (Raised (ClientError "AccessDeniedException"),
            world_after
              (scripted [Raised (ClientError "AccessDeniedException")])
              1 0%nat, l) /\
    l = [EvProbe] /\ probe_count l = 1%nat /\ sleeps l = [].
Proof.
  apply (wait_propagates_first_failure
           (scripted [Raised (ClientError "AccessDeniedException")])
           5 (Some 100) (ClientError "AccessDeniedException") 0%nat).
  - reflexivity.
  - reflexivity.
  - simpl. lia.
  - lia.
Defined.

(** C3 as stated fails when the bound is 0: the probe that would raise is
    never invoked, and the caller gets [TimeoutError] instead of the
    probe's failure. *)
Lemma wait_with_zero_bound_hides_first_failure :
  nth_invocation (scripted [Raised (ClientError "AccessDeniedException")])
    0 0%nat = Raised (ClientError "AccessDeniedException") /\
  is_not_found (ClientError "AccessDeniedException") = false /\
  wait_till_delete (scripted [Raised (ClientError "AccessDeniedException")])
    5 (Some 0) 1 0%nat =
  Some (Raised (TimeoutError timeout_message), 0%nat, []) /\
  probe_count [] = 0%nat.
Proof.
  repeat split.
Qed.

(* ================================================================== *)
(** * A bound of zero *)

(** C4, as amended.  With [timeout = 0] the loop test fails before the
    first pass: [wait_till_delete] raises [TimeoutError] at once, the probe
    is not invoked, nothing is slept, and the world is left as it was. *)
Theorem wait_with_zero_bound_never_probes {W Out : Type}
    (callback : probe W Out) (check_time : Z) (w : W) (fuel : nat) :
  wait_till_delete callback check_time (Some 0) (S fuel) w =
    Some (Raised (TimeoutError timeout_message), w, []) /\
  probe_count [] = 0%nat /\ sleeps [] = [].
Proof.
  repeat split.
Qed.

(** C4 as stated fails: called with [timeout = 0] on a resource that is
    already gone, the function times out without having asked. *)
Lemma wait_with_zero_bound_skips_probe :
  exists l,
    wait_till_delete (gone_at 1) 5 (Some 0) 1 0%nat =
      Some (Raised (TimeoutError timeout_message), 0%nat, l) /\
    probe_count l = 0%nat.
Proof.
  exists []. split; reflexivity.
Qed.

Lemma iteration_finished_log {W Out : Type} (callback : probe W Out)
    (check_time : Z) (timeout : option Z) (s : poll_session W)
    (r : outcome unit) (w' : W) (l : list event) :
  iteration callback check_time timeout s = Finished r w' l ->
  (loop_guard timeout (elapsed_time s) = true /\
   probe_count l = S (probe_count (log s)) /\ sleeps l = sleeps (log s)) \/
  (loop_guard timeout (elapsed_time s) = false /\
   r = Raised (TimeoutError timeout_message) /\ w' = world s /\ l = log s).
Proof.
  unfold iteration.
  assert (Hone : forall tail, probe_count tail = 0%nat -> sleeps tail = [] ->
            probe_count (log s ++ EvProbe :: tail) = S (probe_count (log s)) /\
            sleeps (log s ++ EvProbe :: tail) = sleeps (log s)).
  { intros tail Hp Hs. rewrite probe_count_app, sleeps_app.
    change (probe_count (EvProbe :: tail)) with (S (probe_count tail)).
    change (sleeps (EvProbe :: tail)) with (sleeps tail).
    rewrite Hp, Hs, app_nil_r. split; [lia | reflexivity]. }
  destruct (loop_guard timeout (elapsed_time s)).
  - intros H. left. split; [reflexivity|].
    destruct (callback (world s)) as [[out|e] w1].
    + destruct (time_sleep check_time); [discriminate|].
      injection H as <- <- <-. now apply Hone.
    + except_cases e; injection H as <- <- <-; now apply Hone.
  - intros H. right. injection H as <- <- <-. repeat split.
Qed.

(** For a positive bound or none, a call that ends has invoked the probe. *)
Lemma wait_probes_once_when_entered {W Out : Type}
    (callback : probe W Out) (check_time : Z) (timeout : option Z)
    (w : W) (fuel : nat) r w' l :
  match timeout with
  | None => True
  | Some T => 0 < T
  end ->
  wait_till_delete callback check_time timeout fuel w = Some (r, w', l) ->
  (1 <= probe_count l)%nat.
Proof.
  intros Hto H.
  destruct (while_loop_stops _ _ _ _ _ _ _ _ H) as [n [st [_ [Hat Hfin]]]].
  destruct (session_at_inv _ _ _ _ _ _ Hat) as [-> [_ [_ _]]].
  destruct (iteration_finished_log _ _ _ _ _ _ _ Hfin)
    as [[_ [Hp _]]|[Hg [_ [_ ->]]]].
  - lia.
  - cbn [advanced log initial_session elapsed_time] in *.
    rewrite probe_count_app, probe_count_rounds.
    destruct n as [|n]; [|lia].
    exfalso. unfold loop_guard in Hg. destruct timeout as [T|]; [|discriminate].
    apply Z.ltb_ge in Hg. lia.
Qed.

(* ================================================================== *)
(** * No bound *)




(* ================================================================== *)
(** * The defaults *)

Lemma while_loop_bounded {W Out : Type} (callback : probe W Out)
    (check_time T : Z) (n : nat) (s : poll_session W) :
  0 < check_time ->
  T - elapsed_time s <= Z.of_nat n * check_time ->
  exists r w' l,
    while_loop callback check_time (Some T) (S n) s = Some (r, w', l) /\
    (probe_count l <= probe_count (log s) + n)%nat.
Proof.
  intros Hct. revert s. induction n as [|n IH]; intros s Hleft.
  - cbn [while_loop].
    rewrite iteration_timeout.
    + do 3 eexists. split; [reflexivity | lia].
    + unfold loop_guard. apply Z.ltb_ge. lia.
  - cbn [while_loop].
    destruct (iteration callback check_time (Some T) s) as [s1|r w' l] eqn:Hp.
    + destruct (iteration_continue_inv _ _ _ _ _ Hp) as [_ [_ [_ ->]]].
      destruct (IH (advanced callback check_time 1 s)) as [r [w' [l [Hrun Hc]]]].
      { cbn [advanced elapsed_time]. lia. }
      exists r, w', l. split; [exact Hrun|].
      cbn [advanced log] in Hc.
      rewrite probe_count_app, probe_count_rounds in Hc. lia.
    + exists r, w', l. split; [reflexivity|].
      destruct (iteration_finished_log _ _ _ _ _ _ _ Hp)
        as [[_ [Hc _]]|[_ [_ [_ ->]]]]; lia.
Qed.

(** C8.  The defaults are [check_time = 5] and [timeout = 100].  Called with
    the callback alone, [wait_till_delete] always ends, within 21 passes of
    the loop test, having invoked the probe at most 20 times; when the probe
    keeps returning normally it ends with [TimeoutError] after exactly 20
    invocations and 20 sleeps of 5 seconds. *)
Theorem default_wait_is_bounded {W Out : Type}
    (callback : probe W Out) (w : W) :
  check_time_default = 5 /\ timeout_default = Some 100 /\
  (exists r w' l,
     wait_till_delete_call callback None None 21 w = Some (r, w', l) /\
     (probe_count l <= 20)%nat) /\
  (normal_for callback 20 w = true ->
   wait_till_delete_call callback None None 21 w =
   Some (Raised (TimeoutError timeout_message), world_after callback 20 w,
         polling_rounds 5 20)).
Proof.
  split; [reflexivity|]. split; [reflexivity|]. split.
  - unfold wait_till_delete_call, wait_till_delete,
      check_time_default, timeout_default.
    destruct (while_loop_bounded callback 5 100 20 (initial_session w))
      as [r [w' [l [Hrun Hc]]]].
    + lia.
    + cbn [initial_session elapsed_time]. lia.
    + exists r, w', l. split; [exact Hrun | exact Hc].
  - intros Hn.
    unfold wait_till_delete_call, check_time_default, timeout_default.
    apply (wait_reaches_timeout callback 5 (Some 100) 100 20 w); auto;
      unfold max_sleep; lia.
Qed.

(** The default wait on a resource that never goes away. *)
Lemma default_wait_is_bounded_witness :
  wait_till_delete_call (slow_probe 1) None None 21 0 =
  Some (Raised (TimeoutError timeout_message), world_after (slow_probe 1) 20 0,
        polling_rounds 5 20).
Proof.
  apply (default_wait_is_bounded (slow_probe 1) 0).
  reflexivity.
Defined.

(* ================================================================== *)
(** * Which failure ends the wait *)




(* ================================================================== *)
(** * What the bound measures *)

Lemma while_loop_from_session {W Out : Type} (callback : probe W Out)
    (check_time : Z) (timeout : option Z) (n fuel : nat)
    (s0 s : poll_session W) :
  session_at callback check_time timeout n s0 = Some s ->
  while_loop callback check_time timeout (n + fuel) s0 =
  while_loop callback check_time timeout fuel s.
Proof.
  revert s0. induction n as [|n IH]; intros s0 H.
  - cbn [session_at] in H. injection H as ->. reflexivity.
  - cbn [session_at] in H. cbn [Nat.add while_loop].
    destruct (iteration callback check_time timeout s0) as [s1|r w l];
      [|discriminate].
    now apply IH.
Qed.

(** C10.  At the top of pass [n + 1] of the loop, [elapsed_time] is
    [n * check_time]: it is the sum of the [n] sleeps made so far, one per
    completed pass, and nothing else; a pass that goes round adds
    [check_time] to it after its sleep.  The time the probe takes does not
    enter: whatever the probe and its world, the value is the same.  So the
    loop test compares the bound with the sum of the sleeps: when that sum
    has reached [T], [wait_till_delete] raises [TimeoutError] at this pass,
    whatever the world has become; while it is below [T], this pass invokes
    the probe. *)
Theorem elapsed_time_counts_sleeps_only {W Out : Type}
    (callback : probe W Out) (check_time : Z) (timeout : option Z)
    (n : nat) (w : W) (s : poll_session W) :
  session_at callback check_time timeout n (initial_session w) = Some s ->
  elapsed_time s = Z.of_nat n * check_time /\
  log s = polling_rounds check_time n /\
  sleeps (log s) = repeat check_time n /\
  elapsed_time s = total_sleep (log s) /\
  (forall s',
     iteration callback check_time timeout s = Continue s' ->
     elapsed_time s' = elapsed_time s + check_time /\
     log s' = log s ++ [EvProbe; EvSleep check_time]) /\
  (forall (W2 Out2 : Type) (callback2 : probe W2 Out2) (w2 : W2) s2,
     session_at callback2 check_time timeout n (initial_session w2) = Some s2 ->
     elapsed_time s2 = elapsed_time s) /\
  loop_guard timeout (elapsed_time s) =
    match timeout with
    | None => true
    | Some T => total_sleep (log s) <? T
    end /\
  (forall T, timeout = Some T -> T <= total_sleep (log s) ->
     forall fuel, (n < fuel)%nat ->
       wait_till_delete callback check_time timeout fuel w =
       Some (Raised (TimeoutError timeout_message), world s, log s)) /\
  (match timeout with
   | None => True
   | Some T => total_sleep (log s) < T
   end ->
   forall r w' l,
     iteration callback check_time timeout s = Finished r w' l ->
     probe_count l = S (probe_count (log s))).
Proof.
  intros Hat.
  assert (Hsum : elapsed_time s = total_sleep (log s)).
  { destruct (session_at_inv _ _ _ _ _ _ Hat) as [-> _].
    cbn [advanced initial_session elapsed_time log app].
    rewrite total_sleep_rounds. lia. }
  assert (Hguard : loop_guard timeout (elapsed_time s) =
                   match timeout with
                   | None => true
                   | Some T => total_sleep (log s) <? T
                   end).
  { unfold loop_guard. now rewrite Hsum. }
  split.
  { destruct (session_at_inv _ _ _ _ _ _ Hat) as [-> _].
    cbn [advanced initial_session elapsed_time]. lia. }
  split.
  { destruct (session_at_inv _ _ _ _ _ _ Hat) as [-> _]. reflexivity. }
  split.
  { destruct (session_at_inv _ _ _ _ _ _ Hat) as [-> _].
    cbn [advanced initial_session log app]. apply sleeps_rounds. }
  split; [exact Hsum|]. split.
  { intros s' Hp.
    destruct (iteration_continue_inv _ _ _ _ _ Hp) as [_ [_ [_ ->]]].
    cbn [advanced elapsed_time log polling_rounds].
    split; [lia | reflexivity]. }
  split.
  { intros W2 Out2 callback2 w2 s2 Hat2.
    destruct (session_at_inv _ _ _ _ _ _ Hat) as [-> _].
    destruct (session_at_inv _ _ _ _ _ _ Hat2) as [-> _].
    reflexivity. }
  split; [exact Hguard|]. split.
  - intros T -> Hreached fuel Hfuel.
    replace fuel with (n + S (fuel - S n))%nat by lia.
    unfold wait_till_delete.
    rewrite (while_loop_from_session _ _ _ _ _ _ _ Hat).
    cbn [while_loop]. rewrite iteration_timeout; [reflexivity|].
    rewrite Hguard. now apply Z.ltb_ge.
  - intros Hbelow r w' l Hfin.
    destruct (iteration_finished_log _ _ _ _ _ _ _ Hfin)
      as [[_ [Hp _]]|[Hg _]]; [exact Hp|].
    exfalso. rewrite Hguard in Hg.
    destruct timeout as [T|]; [|discriminate].
    apply Z.ltb_ge in Hg. lia.
Qed.

(** A probe that takes 1000 seconds each time, polled every 5 seconds
    against a bound of 15: after three passes the wall clock stands at 3000,
    far past the bound, [elapsed_time] is 15, and only then does the call
    time out. *)
Lemma elapsed_time_counts_sleeps_only_witness :
  session_at (slow_probe 1000) 5 (Some 15) 3 (initial_session 0)
    = Some {| elapsed_time := 15; world := 3000;
              log := polling_rounds 5 3 |} /\
  elapsed_time {| elapsed_time := 15; world := 3000;
                  log := polling_rounds 5 3 |} = Z.of_nat 3 * 5 /\
  wait_till_delete (slow_probe 1000) 5 (Some 15) 4 0 =
  Some (Raised (TimeoutError timeout_message), 3000, polling_rounds 5 3).
Proof.
  split; [reflexivity|].
  destruct (elapsed_time_counts_sleeps_only (slow_probe 1000) 5 (Some 15) 3 0
              {| elapsed_time := 15; world := 3000;
                 log := polling_rounds 5 3 |} eq_refl)
    as [Helapsed [_ [_ [_ [_ [_ [_ [Htimeout _]]]]]]]].
  split; [exact Helapsed|].
  apply (Htimeout 15 eq_refl); [vm_compute; discriminate | lia].
Defined.

(* ================================================================== *)
(** * Two waits in a row *)

Section Independence.
Context {W1 W2 Out : Type}.
Variable check_time : Z.
Variable timeout : option Z.

Lemma while_loop_on_first (cb : probe W1 Out) (w2 : W2) (fuel : nat)
    (s : poll_session W1) :
  while_loop (on_first cb) check_time timeout fuel (in_first w2 s) =
  match while_loop cb check_time timeout fuel s with
  | Some (r, w1', l) => Some (r, (w1', w2), l)
  | None => None
  end.
Proof.
  revert s. induction fuel as [|fuel IH]; intros s; [reflexivity|].
  cbn [while_loop]. unfold iteration, on_first.
  cbn [in_first elapsed_time world log fst snd].
  destruct (loop_guard timeout (elapsed_time s)); [|reflexivity].
  destruct (cb (world s)) as [[out|e] w1'].
  - destruct (time_sleep check_time); [|reflexivity].
    apply (IH {| elapsed_time := elapsed_time s + check_time;
                 world := w1';
                 log := log s ++ [EvProbe; EvSleep check_time] |}).
  - except_cases e; reflexivity.
Qed.

Lemma while_loop_on_second (cb : probe W2 Out) (w1 : W1) (fuel : nat)
    (s : poll_session W2) :
  while_loop (on_second cb) check_time timeout fuel (in_second w1 s) =
  match while_loop cb check_time timeout fuel s with
  | Some (r, w2', l) => Some (r, (w1, w2'), l)
  | None => None
  end.
Proof.
  revert s. induction fuel as [|fuel IH]; intros s; [reflexivity|].
  cbn [while_loop]. unfold iteration, on_second.
  cbn [in_second elapsed_time world log fst snd].
  destruct (loop_guard timeout (elapsed_time s)); [|reflexivity].
  destruct (cb (world s)) as [[out|e] w2'].
  - destruct (time_sleep check_time); [|reflexivity].
    apply (IH {| elapsed_time := elapsed_time s + check_time;
                 world := w2';
                 log := log s ++ [EvProbe; EvSleep check_time] |}).
  - except_cases e; reflexivity.
Qed.
End Independence.

(** C6.  Two calls of [wait_till_delete] made one after the other, with
    probes that watch different resources, give the two results (return,
    propagated failure or timeout, and log) that each call gives when made
    alone from the initial state of its resource; the order of the two
    calls does not matter either.  Nothing of the first call reaches the
    second: [elapsed_time] starts from 0 again and the log is its own. *)
Theorem sequential_waits_are_independent {W1 W2 Out1 Out2 : Type}
    (callback1 : probe W1 Out1) (check_time1 : Z) (timeout1 : option Z)
    (fuel1 : nat)
    (callback2 : probe W2 Out2) (check_time2 : Z) (timeout2 : option Z)
    (fuel2 : nat) (w1 : W1) (w2 : W2) :
  two_calls (on_first callback1) check_time1 timeout1 fuel1
            (on_second callback2) check_time2 timeout2 fuel2 (w1, w2) =
  match wait_till_delete callback1 check_time1 timeout1 fuel1 w1,
        wait_till_delete callback2 check_time2 timeout2 fuel2 w2 with
  | Some (r1, w1', l1), Some (r2, w2', l2) =>
      Some ((r1, l1), (r2, l2), (w1', w2'))
  | _, _ => None
  end /\
  two_calls (on_second callback2) check_time2 timeout2 fuel2
            (on_first callback1) check_time1 timeout1 fuel1 (w1, w2) =
  match wait_till_delete callback1 check_time1 timeout1 fuel1 w1,
        wait_till_delete callback2 check_time2 timeout2 fuel2 w2 with
  | Some (r1, w1', l1), Some (r2, w2', l2) =>
      Some ((r2, l2), (r1, l1), (w1', w2'))
  | _, _ => None
  end.
Proof.
  unfold two_calls, wait_till_delete.
  pose proof (fun v : W2 => while_loop_on_first check_time1 timeout1 callback1 v
                          fuel1 (initial_session w1)) as H1.
  pose proof (fun v : W1 => while_loop_on_second check_time2 timeout2 callback2 v
                          fuel2 (initial_session w2)) as H2.
  unfold in_first, in_second, initial_session in *.
  cbn [elapsed_time world log] in *.
  split.
  - rewrite H1.
    destruct (while_loop callback1 check_time1 timeout1 fuel1 _)
      as [[[r1 w1'] l1]|].
    + rewrite H2.
      destruct (while_loop callback2 check_time2 timeout2 fuel2 _)
        as [[[r2 w2'] l2]|]; reflexivity.
    + reflexivity.
  - rewrite H2.
    destruct (while_loop callback2 check_time2 timeout2 fuel2 _)
      as [[[r2 w2'] l2]|].
    + rewrite H1.
      destruct (while_loop callback1 check_time1 timeout1 fuel1 _)
        as [[[r1 w1'] l1]|]; reflexivity.
    + destruct (while_loop callback1 check_time1 timeout1 fuel1 _)
        as [[[r1 w1'] l1]|]; reflexivity.
Qed.

(* ================================================================== *)
(** * The training-status loop *)

Lemma still_running_exactly (status : string) :
  still_running status = false <->
  status = "Completed"%string \/ status = "Failed"%string.
Proof.
  unfold still_running. split.
  - intros H. apply andb_false_iff in H.
    destruct H as [H|H]; apply negb_false_iff, String.eqb_eq in H; auto.
  - intros [->| ->]; reflexivity.
Qed.

Lemma sleeps_status_rounds (statuses : list string) :
  sleeps (flat_map status_round statuses)
    = repeat poll_interval (List.length statuses).
Proof.
  induction statuses as [|s rest IH]; [reflexivity|].
  cbn [flat_map List.length repeat]. rewrite sleeps_app, IH. reflexivity.
Qed.

Lemma probe_count_status_rounds (statuses : list string) :
  probe_count (flat_map status_round statuses) = List.length statuses.
Proof.
  induction statuses as [|s rest IH]; [reflexivity|].
  cbn [flat_map List.length]. rewrite probe_count_app, IH. reflexivity.
Qed.

Section TrainingStatusFacts.
Context {W : Type}.
Variable describe_status : probe W string.

Lemma statuses_read_step (n : nat) (w : W) (status : string)
    (rest : list string) :
  statuses_read describe_status (S n) w = Some (status :: rest) ->
  describe_status w = (Normal status, snd (describe_status w)) /\
  statuses_read describe_status n (snd (describe_status w)) = Some rest.
Proof.
  cbn [statuses_read].
  destruct (describe_status w) as [[status'|e] w']; [|discriminate].
  cbn [snd].
  destruct (statuses_read describe_status n w') as [rest'|];
    [|discriminate].
  intros H. injection H as -> ->. split; reflexivity.
Qed.

Lemma status_loop_exits (fuel : nat) (status : string) (w : W)
    (l : list event) :
  still_running status = false ->
  status_loop describe_status (S fuel) status w l = Some (Normal tt, w, l).
Proof.
  intros H. cbn [status_loop]. now rewrite H.
Qed.

Lemma status_loop_goes_round (fuel : nat) (status next : string) (w w' : W)
    (l : list event) :
  still_running status = true ->
  describe_status w = (Normal next, w') ->
  status_loop describe_status (S fuel) status w l =
  status_loop describe_status fuel next w' (l ++ status_round next).
Proof.
  intros Hs Hd. cbn [status_loop]. rewrite Hs.
  change (time_sleep poll_interval) with (@Normal unit tt).
  cbv iota beta. now rewrite Hd.
Qed.

(** From a status that keeps the loop going, with the statuses still to
    come: some that keep it going, then one that ends it. *)
Lemma status_loop_reads (running : list string) :
  forall (status final : string) (w : W) (l : list event) (fuel : nat),
    statuses_read describe_status (S (List.length running)) w
      = Some (running ++ [final]) ->
    still_running status = true ->
    forallb still_running running = true ->
    still_running final = false ->
    (S (List.length running) < fuel)%nat ->
    status_loop describe_status fuel status w l =
    Some (Normal tt,
          world_after describe_status (S (List.length running)) w,
          l ++ flat_map status_round (running ++ [final])).
Proof.
  induction running as [|r rs IH];
    intros status final w l fuel Hread Hs Hrun Hfinal Hfuel.
  - destruct fuel as [|[|fuel]]; [simpl in Hfuel; lia ..|].
    destruct (statuses_read_step _ _ _ _ Hread) as [Hd _].
    rewrite (status_loop_goes_round _ _ _ _ _ _ Hs Hd).
    rewrite (status_loop_exits _ _ _ _ Hfinal).
    cbn [List.length world_after app flat_map]. now rewrite app_nil_r.
  - destruct fuel as [|fuel]; [simpl in Hfuel; lia|].
    change ((r :: rs) ++ [final]) with (r :: (rs ++ [final])) in *.
    destruct (statuses_read_step _ _ _ _ Hread) as [Hd Hrest].
    cbn [forallb] in Hrun. apply andb_true_iff in Hrun.
    destruct Hrun as [Hr Hrun].
    rewrite (status_loop_goes_round _ _ _ _ _ _ Hs Hd).
    rewrite (IH r final _ _ fuel Hrest Hr Hrun Hfinal).
    + cbn [List.length world_after flat_map]. now rewrite <- app_assoc.
    + simpl in Hfuel. lia.
Qed.

Lemma poll_training_status_reads (running : list string) (final : string)
    (w : W) (fuel : nat) :
  statuses_read describe_status (S (List.length running)) w
    = Some (running ++ [final]) ->
  forallb still_running running = true ->
  still_running final = false ->
  (List.length running < fuel)%nat ->
  poll_training_status describe_status fuel w =
  Some (Normal tt, world_after describe_status (S (List.length running)) w,
        status_log (running ++ [final])).
Proof.
  intros Hread Hrun Hfinal Hfuel. unfold poll_training_status.
  destruct running as [|r rs].
  - change ([] ++ [final]) with [final] in *.
    destruct (statuses_read_step _ _ _ _ Hread) as [Hd _]. rewrite Hd.
    destruct fuel as [|fuel]; [simpl in Hfuel; lia|].
    rewrite (status_loop_exits _ _ _ _ Hfinal). reflexivity.
  - change ((r :: rs) ++ [final]) with (r :: (rs ++ [final])) in *.
    destruct (statuses_read_step _ _ _ _ Hread) as [Hd Hrest]. rewrite Hd.
    cbn [forallb] in Hrun. apply andb_true_iff in Hrun.
    destruct Hrun as [Hr Hrun].
    rewrite (status_loop_reads rs r final _ _ fuel Hrest Hr Hrun Hfinal).
    + reflexivity.
    + simpl in Hfuel. lia.
Qed.

Lemma status_loop_never_exits (fuel : nat) :
  forall (status : string) (w : W) (l : list event),
    still_running status = true ->
    running_for describe_status fuel w = true ->
    status_loop describe_status fuel status w l = None.
Proof.
  induction fuel as [|fuel IH]; intros status w l Hs Hrun; [reflexivity|].
  cbn [running_for] in Hrun.
  destruct (describe_status w) as [[next|e] w'] eqn:Hd; [|discriminate].
  apply andb_true_iff in Hrun. destruct Hrun as [Hnext Hrun].
  rewrite (status_loop_goes_round _ _ _ _ _ _ Hs Hd).
  now apply IH.
Qed.

Lemma poll_training_status_never_exits (fuel : nat) (w : W) :
  running_for describe_status (S fuel) w = true ->
  poll_training_status describe_status fuel w = None.
Proof.
  intros Hrun. cbn [running_for] in Hrun. unfold poll_training_status.
  destruct (describe_status w) as [[status|e] w']; [|discriminate].
  apply andb_true_iff in Hrun. destruct Hrun as [Hs Hrun].
  now apply status_loop_never_exits.
Qed.
End TrainingStatusFacts.

Lemma status_log_ends_with_print (running : list string) (final : string) :
  exists before,
    status_log (running ++ [final]) = before ++ [EvProbe; EvPrint final].
Proof.
  destruct running as [|r rs].
  - exists []. reflexivity.
  - change ((r :: rs) ++ [final]) with (r :: (rs ++ [final])).
    cbn [status_log]. rewrite flat_map_app. cbn [flat_map status_round].
    exists (EvProbe :: EvPrint r :: flat_map status_round rs
              ++ [EvSleep poll_interval]).
    cbn [app]. do 2 f_equal. rewrite <- app_assoc. reflexivity.
Qed.

Lemma status_log_counts (running : list string) (final : string) :
  sleeps (status_log (running ++ [final]))
    = repeat poll_interval (List.length running) /\
  probe_count (status_log (running ++ [final])) = S (List.length running).
Proof.
  destruct running as [|r rs].
  - split; reflexivity.
  - change ((r :: rs) ++ [final]) with (r :: (rs ++ [final])).
    cbn [status_log]. split.
    + cbn [sleeps]. rewrite sleeps_status_rounds, length_app.
      cbn [List.length]. f_equal. lia.
    + change (probe_count (EvProbe :: EvPrint r ::
                flat_map status_round (rs ++ [final])))
        with (S (probe_count (flat_map status_round (rs ++ [final])))).
      rewrite probe_count_status_rounds, length_app. cbn [List.length]. lia.
Qed.

(** C7.  The loop reads the status once, then sleeps 60 seconds and reads it
    again for as long as it is neither "Completed" nor "Failed".  When the
    statuses read are [running ++ [final]], with [final] the first of the
    two, the loop ends right after reading and printing [final]: one sleep
    of 60 seconds per earlier status, no sleep and no read after [final].
    It has no bound of its own: while the job keeps reporting other
    statuses the loop does not end, whatever the fuel. *)
Theorem status_poll_stops_at_terminal_status {W : Type}
    (describe_status : probe W string) (w : W) :
  (forall status,
     still_running status = false <->
     status = "Completed"%string \/ status = "Failed"%string) /\
  (forall (running : list string) (final : string),
     statuses_read describe_status (S (List.length running)) w
       = Some (running ++ [final]) ->
     forallb still_running running = true ->
     still_running final = false ->
     (forall fuel, (List.length running < fuel)%nat ->
        poll_training_status describe_status fuel w =
        Some (Normal tt,
              world_after describe_status (S (List.length running)) w,
              status_log (running ++ [final]))) /\
     sleeps (status_log (running ++ [final]))
       = repeat 60 (List.length running) /\
     probe_count (status_log (running ++ [final]))
       = S (List.length running) /\
     (exists before,
        status_log (running ++ [final])
          = before ++ [EvProbe; EvPrint final])) /\
  ((forall n, running_for describe_status n w = true) ->
   forall fuel, poll_training_status describe_status fuel w = None).
Proof.
  split; [exact still_running_exactly|]. split.
  - intros running final Hread Hrun Hfinal.
    split; [|split; [|split]].
    + intros fuel Hfuel. now apply poll_training_status_reads.
    + apply status_log_counts.
    + apply status_log_counts.
    + apply status_log_ends_with_print.
  - intros Hrun fuel. apply poll_training_status_never_exits. apply Hrun.
Qed.

(** A job seen in progress twice and then completed. *)
Lemma status_poll_stops_at_terminal_status_witness :
  (forall fuel, (2 < fuel)%nat ->
     poll_training_status
       (job_reporting ["InProgress"; "InProgress"; "Completed"]%string)
       fuel 0%nat =
     Some (Normal tt, 3%nat,
           [EvProbe; EvPrint "InProgress";
            EvSleep 60; EvProbe; EvPrint "InProgress";
            EvSleep 60; EvProbe; EvPrint "Completed"])) /\
  sleeps (status_log ["InProgress"; "InProgress"; "Completed"]%string)
    = [60; 60].
Proof.
  destruct (proj1 (proj2 (status_poll_stops_at_terminal_status
              (job_reporting ["InProgress"; "InProgress"; "Completed"]%string)
              0%nat))
            ["InProgress"; "InProgress"]%string "Completed"%string
            eq_refl eq_refl eq_refl) as [Hrun [Hsleeps _]].
  split; [exact Hrun | exact Hsleeps].
Defined.

(* ================================================================== *)
(** * Every way a wait can end *)

Lemma time_sleep_refused (secs : Z) (e : exn) :
  time_sleep secs = Raised e ->
  (e = ValueError "sleep length must be non-negative" /\
   - max_sleep <= secs < 0) \/
  (e = overflow_error /\ (secs < - max_sleep \/ max_sleep < secs)).
Proof.
  unfold time_sleep.
  destruct (secs <? - max_sleep) eqn:E1.
  - intros H. injection H as <-. right. apply Z.ltb_lt in E1. auto.
  - destruct (max_sleep <? secs) eqn:E2.
    + intros H. injection H as <-. right. apply Z.ltb_lt in E2. auto.
    + cbn [orb]. destruct (secs <? 0) eqn:E3; [|discriminate].
      intros H. injection H as <-. left.
      apply Z.ltb_ge in E1. apply Z.ltb_lt in E3. auto.
Qed.

Lemma iteration_finished_cases {W Out : Type} (callback : probe W Out)
    (check_time : Z) (timeout : option Z) (s : poll_session W)
    (r : outcome unit) (w' : W) (l : list event) :
  iteration callback check_time timeout s = Finished r w' l ->
  (loop_guard timeout (elapsed_time s) = false /\
   r = Raised (TimeoutError timeout_message) /\ w' = world s /\ l = log s) \/
  (loop_guard timeout (elapsed_time s) = true /\
   exists e, callback (world s) = (Raised e, w') /\
             r = answer_to e /\ l = log s ++ log_of_raise e) \/
  (loop_guard timeout (elapsed_time s) = true /\
   exists out e, callback (world s) = (Normal out, w') /\
                 time_sleep check_time = Raised e /\
                 r = Raised e /\ l = log s ++ [EvProbe]).
Proof.
  intros H.
  destruct (loop_guard timeout (elapsed_time s)) eqn:Hg.
  - right. destruct (callback (world s)) as [[out|e] w1] eqn:Hcb.
    + right. split; [reflexivity|]. exists out.
      unfold iteration in H. rewrite Hg, Hcb in H.
      destruct (time_sleep check_time) as [u|e] eqn:E; [discriminate|].
      exists e. injection H as <- <- <-. repeat split.
    + left. split; [reflexivity|]. exists e.
      rewrite (iteration_raise callback check_time timeout s e w1 Hg Hcb) in H.
      injection H as <- <- <-. repeat split.
  - left. rewrite (iteration_timeout callback check_time timeout s Hg) in H.
    injection H as <- <- <-. repeat split.
Qed.

Lemma wait_finished_at {W Out : Type} (callback : probe W Out)
    (check_time : Z) (timeout : option Z) (fuel : nat) (w : W)
    (r : outcome unit) (w' : W) (l : list event) :
  wait_till_delete callback check_time timeout fuel w = Some (r, w', l) ->
  exists n : nat,
    (n < fuel)%nat /\
    normal_for callback n w = true /\
    open_for check_time timeout n 0 /\
    (n = 0%nat \/ 0 <= check_time <= max_sleep) /\
    iteration callback check_time timeout
      (advanced callback check_time n (initial_session w)) = Finished r w' l.
Proof.
  intros H.
  destruct (while_loop_stops _ _ _ _ _ _ _ _ H) as [n [st [Hlt [Hat Hfin]]]].
  destruct (session_at_inv _ _ _ _ _ _ Hat) as [-> [Hn [Hopen Hct]]].
  exists n. repeat split; auto.
Qed.

Lemma nth_invocation_raised {W Out : Type} (callback : probe W Out)
    (n : nat) (w w' : W) (e : exn) :
  callback (world_after callback n w) = (Raised e, w') ->
  nth_invocation callback n w = Raised e /\
  w' = world_after callback (S n) w.
Proof.
  intros H. unfold nth_invocation. rewrite world_after_S, H. split; reflexivity.
Qed.

Lemma wait_finished_cases {W Out : Type} (callback : probe W Out)
    (check_time : Z) (timeout : option Z) (fuel : nat) (w : W)
    (r : outcome unit) (w' : W) (l : list event) :
  wait_till_delete callback check_time timeout fuel w = Some (r, w', l) ->
  exists n : nat,
    normal_for callback n w = true /\
    w' = world_after callback (probe_count l) w /\
    sleeps l = repeat check_time n /\
    ((r = Normal tt /\
      nth_invocation callback n w = Raised not_found /\
      l = polling_rounds check_time n ++ [EvProbe; EvPrint success_line]) \/
     (exists e,
        r = Raised e /\ is_not_found e = false /\
        nth_invocation callback n w = Raised e /\
        l = polling_rounds check_time n ++ [EvProbe]) \/
     (r = Raised (ValueError "sleep length must be non-negative") /\
      - max_sleep <= check_time < 0 /\ n = 0%nat /\
      returns_normally (nth_invocation callback 0 w) = true /\
      l = [EvProbe]) \/
     (r = Raised overflow_error /\
      (check_time < - max_sleep \/ max_sleep < check_time) /\ n = 0%nat /\
      returns_normally (nth_invocation callback 0 w) = true /\
      l = [EvProbe]) \/
     (exists T,
        r = Raised (TimeoutError timeout_message) /\
        timeout = Some T /\
        T <= Z.of_nat n * check_time /\
        (forall m, (m < n)%nat -> Z.of_nat m * check_time < T) /\
        l = polling_rounds check_time n)).
Proof.
  intros H.
  destruct (wait_finished_at _ _ _ _ _ _ _ _ H)
    as [n [_ [Hn [Hopen [Hct Hfin]]]]].
  exists n. split; [exact Hn|].
  destruct (iteration_finished_cases _ _ _ _ _ _ _ Hfin)
    as [[Hg [-> [-> ->]]] | [[Hg [e [Hcb [-> ->]]]]
        | [Hg [out [e [Hcb [Hsleep [-> ->]]]]]]]];
    cbn [advanced initial_session world log elapsed_time app] in *.
  - (* the bound is reached *)
    rewrite probe_count_rounds, sleeps_rounds.
    split; [reflexivity|]. split; [reflexivity|].
    right. right. right. right.
    unfold loop_guard in Hg. destruct timeout as [T|]; [|discriminate].
    apply Z.ltb_ge in Hg. exists T. repeat split; auto; try lia.
    intros m Hm. specialize (Hopen m Hm). unfold loop_guard in Hopen.
    apply Z.ltb_lt in Hopen. lia.
  - (* the probe raised *)
    destruct (nth_invocation_raised _ _ _ _ _ Hcb) as [He ->].
    assert (Hcount : probe_count (polling_rounds check_time n ++ log_of_raise e)
                     = S n).
    { rewrite probe_count_app, probe_count_rounds.
      unfold log_of_raise, probe_count.
      destruct (is_not_found e); simpl; lia. }
    assert (Hsleeps : sleeps (polling_rounds check_time n ++ log_of_raise e)
                      = repeat check_time n).
    { rewrite sleeps_app, sleeps_rounds.
      unfold log_of_raise. destruct (is_not_found e); simpl; apply app_nil_r. }
    rewrite Hcount, Hsleeps.
    split; [reflexivity|]. split; [reflexivity|].
    unfold answer_to, log_of_raise.
    destruct (is_not_found e) eqn:Hnf.
    + left. apply is_not_found_exactly in Hnf. subst e. repeat split. exact He.
    + right. left. exists e. repeat split; auto.
  - (* the sleep was refused *)
    destruct Hct as [->|Hct].
    2:{ rewrite (time_sleep_accepts _ Hct) in Hsleep. discriminate. }
    cbn [polling_rounds world_after app] in *.
    change (probe_count [EvProbe]) with 1%nat. cbn [world_after].
    split; [now rewrite Hcb|]. split; [reflexivity|].
    assert (Hfirst : returns_normally (nth_invocation callback 0 w) = true).
    { unfold nth_invocation. cbn [world_after]. now rewrite Hcb. }
    right. right.
    destruct (time_sleep_refused _ _ Hsleep) as [[-> Hneg]|[-> Hbig]].
    + left. repeat split; auto; lia.
    + right. left. repeat split; auto.
Qed.



(** ** The success line *)

Lemma success_lines_app (l1 l2 : list event) :
  success_lines (l1 ++ l2) = (success_lines l1 + success_lines l2)%nat.
Proof.
  unfold success_lines. now rewrite filter_app, length_app.
Qed.

Lemma success_lines_rounds (c : Z) (n : nat) :
  success_lines (polling_rounds c n) = 0%nat.
Proof.
  induction n as [|n IH]; [reflexivity|]. exact IH.
Qed.

Lemma wait_success_lines {W Out : Type} (callback : probe W Out)
    (check_time : Z) (timeout : option Z) (fuel : nat) (w : W)
    (r : outcome unit) (w' : W) (l : list event) :
  wait_till_delete callback check_time timeout fuel w = Some (r, w', l) ->
  success_lines l = if returns_normally r then 1%nat else 0%nat.
Proof.
  intros H.
  destruct (wait_finished_cases _ _ _ _ _ _ _ _ H)
    as [n [_ [_ [_ [[-> [_ ->]] | [[e [-> [_ [_ ->]]]]
                  | [[-> [_ [_ [_ ->]]]] | [[-> [_ [_ [_ ->]]]]
                  | [T [-> [_ [_ [_ ->]]]]]]]]]]]]];
    cbn [returns_normally];
    rewrite ?success_lines_app, ?success_lines_rounds; reflexivity.
Qed.

(** X2.  "Successful delete" is printed exactly when [wait_till_delete]
    returns normally, and then once: a call that ends with a failure or
    with the timeout has not printed it. *)
Theorem success_line_iff_returned {W Out : Type} (callback : probe W Out)
    (check_time : Z) (timeout : option Z) (fuel : nat) (w : W)
    (r : outcome unit) (w' : W) (l : list event) :
  wait_till_delete callback check_time timeout fuel w = Some (r, w', l) ->
  success_lines l = (if returns_normally r then 1%nat else 0%nat) /\
  (In (EvPrint success_line) l <-> r = Normal tt).
Proof.
  intros H. split; [exact (wait_success_lines _ _ _ _ _ _ _ _ H)|].
  pose proof (wait_success_lines _ _ _ _ _ _ _ _ H) as Hcount.
  unfold success_lines in Hcount. split.
  - intros Hin.
    assert (Hf : In (EvPrint success_line) (filter is_success_line l)).
    { apply filter_In. split; [exact Hin | reflexivity]. }
    destruct r as [[]|e]; [reflexivity|].
    cbn [returns_normally] in Hcount.
    destruct (filter is_success_line l); [destruct Hf | discriminate].
  - intros ->. cbn [returns_normally] in Hcount.
    destruct (filter is_success_line l) as [|ev rest] eqn:Hf; [discriminate|].
    assert (Hev : In ev (filter is_success_line l))
      by (rewrite Hf; now left).
    apply filter_In in Hev. destruct Hev as [Hin Hev].
    destruct ev as [|secs|line]; try discriminate.
    cbn [is_success_line] in Hev. apply String.eqb_eq in Hev. now subst.
Qed.

Lemma success_line_iff_returned_witness :
  success_lines (polling_rounds 5 2 ++ [EvProbe; EvPrint success_line])
    = 1%nat /\
  success_lines (polling_rounds 5 2) = 0%nat.
Proof.
  split.
  - exact (proj1 (success_line_iff_returned (gone_at 3) 5 (Some 100) 3 0%nat
                    (Normal tt) 3%nat
                    (polling_rounds 5 2 ++ [EvProbe; EvPrint success_line])
                    eq_refl)).
  - exact (proj1 (success_line_iff_returned (gone_at 3) 5 (Some 10) 3 0%nat
                    (Raised (TimeoutError timeout_message)) 2%nat
                    (polling_rounds 5 2) eq_refl)).
Defined.

(* ================================================================== *)
(** * Waits that do not end, and intervals that are refused *)




(** X4.  With a [check_time] that [time.sleep] refuses, a call that enters
    the loop and whose first probe returns normally raises the error of the
    sleep: [ValueError] for a negative interval down to -9223372036,
    [OverflowError] for one beyond 9223372036 in either direction.  The
    probe has been invoked once, and nothing was slept. *)
Theorem wait_refuses_bad_interval {W Out : Type}
    (callback : probe W Out) (check_time : Z) (timeout : option Z) (w : W) :
  check_time < 0 \/ max_sleep < check_time ->
  match timeout with
  | None => True
  | Some T => 0 < T
  end ->
  returns_normally (nth_invocation callback 0 w) = true ->
  forall fuel, (1 <= fuel)%nat ->
    wait_till_delete callback check_time timeout fuel w =
    Some (Raised (if (check_time <? - max_sleep) || (max_sleep <? check_time)
                  then overflow_error
                  else ValueError "sleep length must be non-negative"),
          world_after callback 1 w, [EvProbe]).
Proof.
  intros Hbad Hto Hfirst fuel Hfuel.
  destruct fuel as [|fuel]; [lia|].
  unfold wait_till_delete. cbn [while_loop]. unfold iteration.
  cbn [initial_session elapsed_time world log world_after app].
  replace (loop_guard timeout 0) with true.
  2:{ unfold loop_guard. destruct timeout as [T|]; [|reflexivity].
      symmetry. now apply Z.ltb_lt. }
  unfold nth_invocation in Hfirst. cbn [world_after] in Hfirst.
  destruct (callback w) as [[out|e] w1]; [|discriminate].
  rewrite (time_sleep_refuses _ Hbad). reflexivity.
Qed.

Lemma wait_refuses_bad_interval_witness :
  wait_till_delete (gone_at 3) (-5) (Some 100) 1 0%nat =
  Some (Raised (ValueError "sleep length must be non-negative"),
        world_after (gone_at 3) 1 0%nat, [EvProbe]) /\
  wait_till_delete (gone_at 3) (-10000000000) (Some 100) 1 0%nat =
  Some (Raised overflow_error, world_after (gone_at 3) 1 0%nat, [EvProbe]) /\
  wait_till_delete (gone_at 3) 10000000000 (Some 100) 1 0%nat =
  Some (Raised overflow_error, world_after (gone_at 3) 1 0%nat, [EvProbe]).
Proof.
  split; [|split].
  - apply (wait_refuses_bad_interval (gone_at 3) (-5) (Some 100) 0%nat).
    + left. lia.
    + simpl. lia.
    + reflexivity.
    + lia.
  - apply (wait_refuses_bad_interval (gone_at 3) (-10000000000) (Some 100)
             0%nat).
    + left. lia.
    + simpl. lia.
    + reflexivity.
    + lia.
  - apply (wait_refuses_bad_interval (gone_at 3) 10000000000 (Some 100)
             0%nat).
    + right. unfold max_sleep. lia.
    + simpl. lia.
    + reflexivity.
    + lia.
Defined.

(* ================================================================== *)
(** * How long a bounded wait can last *)

Lemma wait_sleeps_at_most_probes {W Out : Type} (callback : probe W Out)
    (check_time : Z) (timeout : option Z) (fuel : nat) (w : W)
    (r : outcome unit) (w' : W) (l : list event) :
  wait_till_delete callback check_time timeout fuel w = Some (r, w', l) ->
  exists n : nat,
    (n <= probe_count l)%nat /\ total_sleep l = Z.of_nat n * check_time.
Proof.
  intros H.
  destruct (wait_finished_cases _ _ _ _ _ _ _ _ H)
    as [n [_ [_ [Hs Hcases]]]].
  exists n. split.
  - destruct Hcases as [[_ [_ ->]] | [[e [_ [_ [_ ->]]]]
                        | [[_ [_ [-> [_ ->]]]] | [[_ [_ [-> [_ ->]]]]
                        | [T [_ [_ [_ [_ ->]]]]]]]]];
      rewrite ?probe_count_app, ?probe_count_rounds; lia.
  - unfold total_sleep. rewrite Hs. apply sum_repeat.
Qed.

Lemma wait_bounded {W Out : Type} (callback : probe W Out)
    (check_time T : Z) (w : W) (fuel : nat) :
  0 < check_time ->
  (passes_within check_time T < fuel)%nat ->
  exists r w' l,
    wait_till_delete callback check_time (Some T) fuel w = Some (r, w', l) /\
    (probe_count l <= passes_within check_time T)%nat /\
    total_sleep l <= Z.of_nat (passes_within check_time T) * check_time.
Proof.
  intros Hct Hfuel.
  destruct (while_loop_bounded callback check_time T
              (passes_within check_time T) (initial_session w) Hct)
    as [r [w' [l [Hrun Hc]]]].
  { cbn [initial_session elapsed_time].
    pose proof (passes_within_reaches check_time T Hct). lia. }
  assert (Hwait : wait_till_delete callback check_time (Some T) fuel w
                  = Some (r, w', l)).
  { unfold wait_till_delete.
    apply (while_loop_more_fuel callback check_time (Some T)
             (S (passes_within check_time T))); [exact Hrun | lia]. }
  exists r, w', l. split; [exact Hwait|].
  cbn [initial_session log] in Hc. change (probe_count []) with 0%nat in Hc.
  split; [lia|].
  destruct (wait_sleeps_at_most_probes _ _ _ _ _ _ _ _ Hwait) as [n [Hn ->]].
  apply Z.mul_le_mono_nonneg_r; lia.
Qed.

(** X5.  For an interval [check_time > 0] and a bound [T], whatever the
    probe does, [wait_till_delete] ends within [n + 1] tests of the loop
    condition, where [n] is the least count with [T <= n * check_time]: it
    has invoked the probe at most [n] times and slept at most
    [n * check_time] seconds, which is less than [max T 0 + check_time]. *)
Theorem wait_with_bound_always_ends {W Out : Type} (callback : probe W Out)
    (check_time T : Z) (w : W) (fuel : nat) :
  0 < check_time ->
  (passes_within check_time T < fuel)%nat ->
  exists r w' l,
    wait_till_delete callback check_time (Some T) fuel w = Some (r, w', l) /\
    (probe_count l <= passes_within check_time T)%nat /\
    total_sleep l <= Z.of_nat (passes_within check_time T) * check_time /\
    total_sleep l < Z.max T 0 + check_time.
Proof.
  intros Hct Hfuel.
  destruct (wait_bounded callback check_time T w fuel Hct Hfuel)
    as [r [w' [l [Hrun [Hp Hs]]]]].
  exists r, w', l. repeat split; auto.
  destruct (passes_within check_time T) as [|n] eqn:E.
  - simpl in Hs. lia.
  - pose proof (passes_within_least check_time T n Hct) as Hleast.
    rewrite E in Hleast. specialize (Hleast ltac:(lia)). lia.
Qed.

(** A probe that fails at its fourth invocation, polled every 7 seconds
    against a bound of 30. *)
Lemma wait_with_bound_always_ends_witness :
  exists r w' l,
    wait_till_delete
      (scripted [Normal tt; Normal tt; Normal tt;
                 Raised (ClientError "Throttling")])
      7 (Some 30) 6 0%nat = Some (r, w', l) /\
    (probe_count l <= passes_within 7 30)%nat /\
    total_sleep l <= Z.of_nat (passes_within 7 30) * 7 /\
    total_sleep l < Z.max 30 0 + 7.
Proof.
  apply (wait_with_bound_always_ends
           (scripted [Normal tt; Normal tt; Normal tt;
                      Raised (ClientError "Throttling")])
           7 30 0%nat 6).
  - lia.
  - vm_compute. lia.
Defined.




(* ================================================================== *)
(** * The clean-up cells *)

Lemma total_sleep_app (l1 l2 : list event) :
  total_sleep (l1 ++ l2) = total_sleep l1 + total_sleep l2.
Proof.
  unfold total_sleep. rewrite sleeps_app.
  induction (sleeps l1) as [|secs rest IH]; [reflexivity|].
  cbn [app fold_right]. rewrite IH. lia.
Qed.

Lemma default_wait_ends {W Out : Type} (callback : probe W Out) (w : W)
    (fuel : nat) :
  exists r w' l,
    wait_till_delete_call callback None None (21 + fuel) w = Some (r, w', l) /\
    (probe_count l <= 20)%nat /\ total_sleep l <= 100 /\
    success_lines l = if returns_normally r then 1%nat else 0%nat.
Proof.
  unfold wait_till_delete_call, check_time_default, timeout_default.
  destruct (wait_bounded callback 5 100 w (21 + fuel))
    as [r [w' [l [Hrun [Hp Hs]]]]].
  - lia.
  - change (passes_within 5 100) with 20%nat. lia.
  - change (passes_within 5 100) with 20%nat in Hp, Hs.
    exists r, w', l. repeat split; auto; try lia.
    exact (wait_success_lines _ _ _ _ _ _ _ _ Hrun).
Qed.

Section CleanUpFacts.
Context {W Out : Type}.
Variable model_params : string -> option string.
Variable op : string -> probe W Out.

Lemma wait_for_each_ends (keys : list string) (fuel : nat) (w : W) :
  exists r w' l,
    wait_for_each model_params op keys (21 + fuel) w = Some (r, w', l) /\
    (probe_count l <= 20 * List.length keys)%nat /\
    total_sleep l <= 100 * Z.of_nat (List.length keys) /\
    (if returns_normally r
     then success_lines l = List.length keys
     else (success_lines l < List.length keys)%nat).
Proof.
  revert w. induction keys as [|key rest IH]; intros w.
  - exists (Normal tt), w, []. repeat split; cbn; lia.
  - cbn [wait_for_each].
    destruct (default_wait_ends (request model_params op key) w fuel)
      as [r [w1 [l [Hrun [Hp [Hs Hlines]]]]]].
    rewrite Hrun. destruct r as [[]|e]; cbn [returns_normally] in Hlines.
    + destruct (IH w1) as [r2 [w2 [l2 [Hrun2 [Hp2 [Hs2 Hlines2]]]]]].
      rewrite Hrun2. exists r2, w2, (l ++ l2).
      rewrite probe_count_app, total_sleep_app, success_lines_app.
      cbn [List.length]. split; [reflexivity|].
      split; [lia|]. split; [lia|].
      destruct (returns_normally r2); lia.
    + exists (Raised e), w1, l. cbn [List.length returns_normally].
      split; [reflexivity|]. split; [lia|]. split; lia.
Qed.

Lemma wait_for_each_more_fuel (keys : list string) (fuel fuel' : nat) (w : W)
    x :
  wait_for_each model_params op keys fuel w = Some x ->
  (fuel <= fuel')%nat ->
  wait_for_each model_params op keys fuel' w = Some x.
Proof.
  revert w x. induction keys as [|key rest IH]; intros w x H Hle;
    [exact H|].
  cbn [wait_for_each] in *. unfold wait_till_delete_call, wait_till_delete in *.
  destruct (while_loop (request model_params op key) check_time_default
              timeout_default fuel (initial_session w))
    as [[[r w1] l]|] eqn:Hrun; [|discriminate].
  rewrite (while_loop_more_fuel _ _ _ fuel fuel' _ _ Hrun Hle).
  destruct r as [[]|e]; [|exact H].
  destruct (wait_for_each model_params op rest fuel w1) as [x2|] eqn:Hrest;
    [|discriminate].
  now rewrite (IH _ _ Hrest Hle).
Qed.
End CleanUpFacts.

(** X7.  A clean-up loop cannot hang: with the defaults of
    [wait_till_delete], the loop over any list of keys ends, having invoked
    the delete operation at most 20 times and slept at most 100 seconds per
    key, whatever the service answers and whatever [model_params] holds; the
    two loops of the notebook make at most 40 requests and sleep at most 200
    seconds each. *)
Theorem clean_up_loop_always_ends {W Out : Type}
    (model_params : string -> option string) (forecast : forecast_client W Out)
    (op : string -> probe W Out) (keys : list string) (fuel : nat) (w : W) :
  (exists r w' l,
     wait_for_each model_params op keys (21 + fuel) w = Some (r, w', l) /\
     (probe_count l <= 20 * List.length keys)%nat /\
     total_sleep l <= 100 * Z.of_nat (List.length keys)) /\
  (exists r w' l,
     delete_import_jobs_cell model_params forecast (21 + fuel) w
       = Some (r, w', l) /\
     (probe_count l <= 40)%nat /\ total_sleep l <= 200) /\
  (exists r w' l,
     delete_datasets_cell model_params forecast (21 + fuel) w
       = Some (r, w', l) /\
     (probe_count l <= 40)%nat /\ total_sleep l <= 200).
Proof.
  split; [|split].
  - destruct (wait_for_each_ends model_params op keys fuel w)
      as [r [w' [l [Hrun [Hp [Hs _]]]]]].
    exists r, w', l. auto.
  - unfold delete_import_jobs_cell.
    destruct (wait_for_each_ends model_params
                (delete_dataset_import_job forecast)
                ["target_import_job_arn"; "related_import_job_arn"]%string
                fuel w) as [r [w' [l [Hrun [Hp [Hs _]]]]]].
    exists r, w', l. cbn [List.length] in Hp, Hs. repeat split; auto; lia.
  - unfold delete_datasets_cell.
    destruct (wait_for_each_ends model_params (delete_dataset forecast)
                ["target_dataset_arn"; "related_dataset_arn"]%string
                fuel w) as [r [w' [l [Hrun [Hp [Hs _]]]]]].
    exists r, w', l. cbn [List.length] in Hp, Hs. repeat split; auto; lia.
Qed.

(** X8.  A clean-up loop that returns normally has printed "Successful
    delete" once per key; one that ends with an exception has printed it
    fewer times than there are keys, once for each resource reported gone
    before the failure. *)
Theorem clean_up_loop_success_lines {W Out : Type}
    (model_params : string -> option string) (op : string -> probe W Out)
    (keys : list string) (fuel : nat) (w : W)
    (r : outcome unit) (w' : W) (l : list event) :
  wait_for_each model_params op keys fuel w = Some (r, w', l) ->
  if returns_normally r
  then success_lines l = List.length keys
  else (success_lines l < List.length keys)%nat.
Proof.
  intros H.
  destruct (wait_for_each_ends model_params op keys fuel w)
    as [r2 [w2 [l2 [Hrun [_ [_ Hlines]]]]]].
  rewrite (wait_for_each_more_fuel model_params op keys fuel (21 + fuel) w
             _ H ltac:(lia)) in Hrun.
  injection Hrun as <- <- <-. exact Hlines.
Qed.

(** Two datasets: the first is already gone, the key of the second is
    missing. *)
Lemma clean_up_loop_success_lines_witness :
  wait_for_each
    (fun key => if String.eqb key "a" then Some "arn-a"%string else None)
    (lagging_delete 0) ["a"; "b"]%string 2 [] =
  Some (Raised (key_error "b"), ["arn-a"%string],
        [EvProbe; EvPrint success_line; EvProbe]) /\
  (success_lines [EvProbe; EvPrint success_line; EvProbe] < 2)%nat.
Proof.
  assert (H : wait_for_each
                (fun key => if String.eqb key "a"
                            then Some "arn-a"%string else None)
                (lagging_delete 0) ["a"; "b"]%string 2 [] =
              Some (Raised (key_error "b"), ["arn-a"%string],
                    [EvProbe; EvPrint success_line; EvProbe]))
    by (vm_compute; reflexivity).
  split; [exact H|].
  exact (clean_up_loop_success_lines _ _ _ _ _ _ _ _ H).
Defined.

(** X9.  A key that is missing from [model_params] ends the loop at once:
    the lookup raises [KeyError] inside the lambda, at its first
    invocation, so no request reaches the service, nothing is slept, and the
    keys after it are not processed. *)
Theorem clean_up_loop_stops_at_missing_key {W Out : Type}
    (model_params : string -> option string) (op : string -> probe W Out)
    (key : string) (rest : list string) (fuel : nat) (w : W) :
  model_params key = None ->
  wait_for_each model_params op (key :: rest) (S fuel) w =
  Some (Raised (key_error key), w, [EvProbe]).
Proof.
  intros Hmiss. cbn [wait_for_each].
  unfold wait_till_delete_call, wait_till_delete,
    check_time_default, timeout_default.
  cbn [while_loop].
  rewrite (iteration_raise (request model_params op key) 5 (Some 100)
             (initial_session w) (key_error key) w).
  - reflexivity.
  - reflexivity.
  - cbn [initial_session world]. unfold request. now rewrite Hmiss.
Qed.

Lemma clean_up_loop_stops_at_missing_key_witness :
  wait_for_each
    (fun key => if String.eqb key "related_dataset_arn"
                then Some "arn:aws:forecast:::dataset/r"%string else None)
    (lagging_delete 0)
    ["target_dataset_arn"; "related_dataset_arn"]%string 1 [] =
  Some (Raised (key_error "target_dataset_arn"), [], [EvProbe]).
Proof.
  apply (clean_up_loop_stops_at_missing_key
           (fun key => if String.eqb key "related_dataset_arn"
                       then Some "arn:aws:forecast:::dataset/r"%string
                       else None)
           (lagging_delete 0) "target_dataset_arn"
           ["related_dataset_arn"]%string 0 []).
  reflexivity.
Defined.

(* ================================================================== *)
(** * A failing read in the training-status loop *)

Section TrainingStatusFailure.
Context {W : Type}.
Variable describe_status : probe W string.

Lemma first_invocation_raised (w : W) (e : exn) :
  nth_invocation describe_status 0 w = Raised e ->
  describe_status w = (Raised e, world_after describe_status 1 w).
Proof.
  unfold nth_invocation. cbn [world_after].
  destruct (describe_status w) as [o w']. cbn [fst snd]. now intros ->.
Qed.

Lemma status_loop_read_fails (fuel : nat) (status : string) (w w' : W)
    (l : list event) (e : exn) :
  still_running status = true ->
  describe_status w = (Raised e, w') ->
  status_loop describe_status (S fuel) status w l =
  Some (Raised e, w', l ++ [EvSleep poll_interval; EvProbe]).
Proof.
  intros Hs Hd. cbn [status_loop]. rewrite Hs.
  change (time_sleep poll_interval) with (@Normal unit tt).
  cbv iota beta. now rewrite Hd.
Qed.

Lemma status_loop_fails (running : list string) :
  forall (status : string) (w : W) (l : list event) (fuel : nat) (e : exn),
    statuses_read describe_status (List.length running) w = Some running ->
    forallb still_running running = true ->
    nth_invocation describe_status (List.length running) w = Raised e ->
    still_running status = true ->
    (List.length running < fuel)%nat ->
    status_loop describe_status fuel status w l =
    Some (Raised e,
          world_after describe_status (S (List.length running)) w,
          l ++ flat_map status_round running
            ++ [EvSleep poll_interval; EvProbe]).
Proof.
  induction running as [|r rs IH];
    intros status w l fuel e Hread Hrun He Hs Hfuel.
  - destruct fuel as [|fuel]; [simpl in Hfuel; lia|].
    apply first_invocation_raised in He.
    rewrite (status_loop_read_fails _ _ _ _ _ _ Hs He). reflexivity.
  - destruct fuel as [|fuel]; [simpl in Hfuel; lia|].
    cbn [List.length] in Hread, He.
    destruct (statuses_read_step _ _ _ _ _ Hread) as [Hd Hrest].
    cbn [forallb] in Hrun. apply andb_true_iff in Hrun.
    destruct Hrun as [Hr Hrun].
    rewrite (status_loop_goes_round _ _ _ _ _ _ _ Hs Hd).
    rewrite (IH r _ _ fuel e Hrest Hrun He Hr).
    + cbn [List.length world_after flat_map]. now rewrite <- !app_assoc.
    + simpl in Hfuel. lia.
Qed.
End TrainingStatusFailure.

(** X10.  In the training-status loop a read that raises ends the polling
    with that exception.  If the first reads return [running], statuses that
    keep the loop going, and the next read raises [e], the cell raises [e]
    after one sleep of 60 seconds per status read; when the very first read
    raises, nothing is slept or printed. *)
Theorem status_poll_propagates_read_failure {W : Type}
    (describe_status : probe W string) (running : list string) (e : exn)
    (w : W) :
  statuses_read describe_status (List.length running) w = Some running ->
  forallb still_running running = true ->
  nth_invocation describe_status (List.length running) w = Raised e ->
  (forall fuel, (List.length running <= fuel)%nat ->
     poll_training_status describe_status fuel w =
     Some (Raised e,
           world_after describe_status (S (List.length running)) w,
           status_log running ++
           match running with
           | [] => [EvProbe]
           | _ :: _ => [EvSleep 60; EvProbe]
           end)) /\
  sleeps (status_log running ++
          match running with
          | [] => [EvProbe]
          | _ :: _ => [EvSleep 60; EvProbe]
          end) = repeat 60 (List.length running).
Proof.
  intros Hread Hrun He. split.
  - intros fuel Hfuel. unfold poll_training_status.
    destruct running as [|r rs].
    + apply first_invocation_raised in He. now rewrite He.
    + cbn [List.length] in Hread, He, Hfuel.
      destruct (statuses_read_step _ _ _ _ _ Hread) as [Hd Hrest]. rewrite Hd.
      cbn [forallb] in Hrun. apply andb_true_iff in Hrun.
      destruct Hrun as [Hr Hrun].
      rewrite (status_loop_fails describe_status rs r _ _ fuel e
                 Hrest Hrun He Hr Hfuel).
      reflexivity.
  - destruct running as [|r rs]; [reflexivity|].
    cbn [status_log app sleeps List.length].
    rewrite sleeps_app, sleeps_status_rounds.
    change (sleeps [EvSleep 60; EvProbe]) with [60].
    change poll_interval with 60.
    clear. induction rs as [|x xs IH]; [reflexivity|].
    cbn [List.length repeat app]. now rewrite IH.
Qed.

(** A job seen in progress once, then a read that is throttled. *)
Lemma status_poll_propagates_read_failure_witness :
  poll_training_status
    (fun n : nat =>
       (match n with
        | O => Normal "InProgress"%string
        | _ => Raised (ClientError "ThrottlingException")
        end, S n))
    1 0%nat =
  Some (Raised (ClientError "ThrottlingException"), 2%nat,
        [EvProbe; EvPrint "InProgress"; EvSleep 60; EvProbe]).
Proof.
  exact (proj1 (status_poll_propagates_read_failure
                  (fun n : nat =>
                     (match n with
                      | O => Normal "InProgress"%string
                      | _ => Raised (ClientError "ThrottlingException")
                      end, S n))
                  ["InProgress"%string] (ClientError "ThrottlingException")
                  0%nat eq_refl eq_refl eq_refl) 1%nat (le_n 1)).
Defined.

(* ================================================================== *)
(** * Splitting ARNs and image URIs *)


Lemma split_on_no_sep (sep : ascii) (s : string) :
  count_char sep s = 0%nat -> split_on sep s = [s].
Proof.
  induction s as [|c s IH]; [reflexivity|].
  cbn [count_char split_on].
  destruct (Ascii.eqb c sep); [discriminate|].
  intros H. now rewrite (IH H).
Qed.

Lemma split_on_field (sep : ascii) (a b : string) :
  count_char sep a = 0%nat ->
  split_on sep (a ++ String sep b) = a :: split_on sep b.
Proof.
  induction a as [|c a IH].
  - intros _. cbn [append split_on]. now rewrite Ascii.eqb_refl.
  - cbn [count_char append split_on].
    destruct (Ascii.eqb c sep); [discriminate|].
    intros H. now rewrite (IH H).
Qed.

Lemma length_split_on (sep : ascii) (s : string) :
  List.length (split_on sep s) = S (count_char sep s).
Proof.
  induction s as [|c s IH]; [reflexivity|].
  cbn [count_char split_on].
  destruct (Ascii.eqb c sep).
  - cbn [List.length]. now rewrite IH.
  - destruct (split_on sep s) as [|field fields]; [discriminate|].
    exact IH.
Qed.

Lemma item_raises {A : Type} (l : list A) (i : nat) :
  item l i = Raised index_error <-> (List.length l <= i)%nat.
Proof.
  unfold item. destruct (nth_error l i) as [x|] eqn:E.
  - split; [discriminate|].
    intros H. apply nth_error_None in H. congruence.
  - split; [|reflexivity]. intros _. now apply nth_error_None.
Qed.

(** The fields of an ARN, [arn:partition:service:region:account:resource]. *)
Lemma split_arn (partition service region account resource : string) :
  count_char ":" partition = 0%nat ->
  count_char ":" service = 0%nat ->
  count_char ":" region = 0%nat ->
  count_char ":" account = 0%nat ->
  split_on ":" ("arn:" ++ partition ++ ":" ++ service ++ ":" ++ region
                  ++ ":" ++ account ++ ":" ++ resource)
  = "arn"%string :: partition :: service :: region :: account
      :: split_on ":" resource.
Proof.
  intros Hp Hs Hr Ha.
  change ("arn:" ++ partition ++ ":" ++ service ++ ":" ++ region
            ++ ":" ++ account ++ ":" ++ resource)%string
    with ("arn" ++ String ":" (partition ++ String ":" (service ++ String ":"
            (region ++ String ":" (account ++ String ":" resource)))))%string.
  rewrite (split_on_field ":" "arn") by reflexivity.
  now rewrite !split_on_field by assumption.
Qed.

(** X11.  For a role ARN of the standard form
    [arn:partition:service:region:account:resource], whose first fields hold
    no colon, [role_arn.split(":")[4]] is the account id, whatever the
    resource part. *)
Theorem account_id_of_arn
    (partition service region account resource : string) :
  count_char ":" partition = 0%nat ->
  count_char ":" service = 0%nat ->
  count_char ":" region = 0%nat ->
  count_char ":" account = 0%nat ->
  account_id ("arn:" ++ partition ++ ":" ++ service ++ ":" ++ region
                ++ ":" ++ account ++ ":" ++ resource) = Normal account.
Proof.
  intros Hp Hs Hr Ha. unfold account_id.
  now rewrite split_arn by assumption.
Qed.

Lemma account_id_of_arn_witness :
  account_id "arn:aws:iam::123456789012:role/service-role/AmazonSageMaker"
  = Normal "123456789012"%string.
Proof.
  exact (account_id_of_arn "aws" "iam" "" "123456789012"
           "role/service-role/AmazonSageMaker"
           eq_refl eq_refl eq_refl eq_refl).
Defined.

(** X12.  [role_arn.split(":")[4]] raises [IndexError] exactly when the
    string holds fewer than four colons; otherwise it returns, and never
    raises anything else. *)
Theorem account_id_raises_iff_short (role_arn : string) :
  (account_id role_arn = Raised index_error <->
   (count_char ":" role_arn < 4)%nat) /\
  ((4 <= count_char ":" role_arn)%nat <->
   exists account, account_id role_arn = Normal account).
Proof.
  assert (H : account_id role_arn = Raised index_error <->
              (count_char ":" role_arn < 4)%nat).
  { unfold account_id. rewrite item_raises, length_split_on. lia. }
  split; [exact H|]. split.
  - intros Hlen. unfold account_id, item in *.
    destruct (nth_error (split_on ":" role_arn) 4) as [x|].
    + now exists x.
    + exfalso. assert (count_char ":" role_arn < 4)%nat by now apply H.
      lia.
  - intros [account Hacc].
    destruct (Nat.le_gt_cases 4 (count_char ":" role_arn)) as [Hle|Hgt];
      [exact Hle|].
    apply H in Hgt. congruence.
Qed.

(** X13.  For a training-job ARN [prefix/name] with no other slash,
    [arn.split("/")[1]] is the job name; it raises [IndexError] exactly
    when the string holds no slash. *)
Theorem training_job_name_of_arn :
  (forall prefix name : string,
     count_char "/" prefix = 0%nat ->
     count_char "/" name = 0%nat ->
     training_job_name (prefix ++ "/" ++ name) = Normal name) /\
  (forall arn : string,
     training_job_name arn = Raised index_error <->
     count_char "/" arn = 0%nat).
Proof.
  split.
  - intros prefix name Hp Hn. unfold training_job_name.
    change (prefix ++ "/" ++ name)%string
      with (prefix ++ String "/" name)%string.
    rewrite split_on_field, split_on_no_sep by assumption. reflexivity.
  - intros arn. unfold training_job_name.
    rewrite item_raises, length_split_on. lia.
Qed.

Lemma training_job_name_of_arn_witness :
  training_job_name
    "arn:aws:sagemaker:us-east-1:123456789012:training-job/forecast-train-1"
  = Normal "forecast-train-1"%string.
Proof.
  exact (proj1 training_job_name_of_arn
           "arn:aws:sagemaker:us-east-1:123456789012:training-job"%string
           "forecast-train-1"%string eq_refl eq_refl).
Defined.

(** X14.  The image the pipeline steps run is the image the shell cell
    pushed: for a role ARN of the standard form, [container_image_uri] is
    the [fullname] the shell cell builds for the account of the role and the
    same region. *)
Theorem container_image_uri_is_pushed_image
    (partition service arn_region account resource region : string) :
  count_char ":" partition = 0%nat ->
  count_char ":" service = 0%nat ->
  count_char ":" arn_region = 0%nat ->
  count_char ":" account = 0%nat ->
  container_image_uri
    ("arn:" ++ partition ++ ":" ++ service ++ ":" ++ arn_region
       ++ ":" ++ account ++ ":" ++ resource) region
  = Normal (fullname account region).
Proof.
  intros Hp Hs Hr Ha. unfold container_image_uri, account_id.
  rewrite split_arn by assumption. reflexivity.
Qed.

Lemma container_image_uri_is_pushed_image_witness :
  container_image_uri "arn:aws:iam::123456789012:role/SageMakerRole"
    "eu-west-1"
  = Normal (fullname "123456789012" "eu-west-1").
Proof.
  exact (container_image_uri_is_pushed_image "aws" "iam" "" "123456789012"
           "role/SageMakerRole" "eu-west-1"
           eq_refl eq_refl eq_refl eq_refl).
Defined.

(** X15.  [image_uri.split(".")[0]] never raises, and it is the part of
    the string before its first dot: for an image URI [acc.rest] with no dot
    in [acc], such as [acc.dkr.ecr.region.amazonaws.com/path], it is
    [acc]. *)
Theorem image_acc_id_is_registry_account :
  (forall image_uri : string,
     exists acc, image_acc_id image_uri = Normal acc) /\
  (forall acc rest : string,
     count_char "." acc = 0%nat ->
     image_acc_id (acc ++ "." ++ rest) = Normal acc) /\
  (forall image_uri : string,
     count_char "." image_uri = 0%nat ->
     image_acc_id image_uri = Normal image_uri).
Proof.
  split; [|split].
  - intros image_uri. unfold image_acc_id, item.
    pose proof (length_split_on "." image_uri) as Hlen.
    destruct (split_on "." image_uri) as [|field fields]; [discriminate|].
    now exists field.
  - intros acc rest Hacc. unfold image_acc_id.
    change (acc ++ "." ++ rest)%string with (acc ++ String "." rest)%string.
    now rewrite split_on_field by assumption.
  - intros image_uri Hnone. unfold image_acc_id.
    now rewrite split_on_no_sep by assumption.
Qed.

Lemma image_acc_id_is_registry_account_witness :
  image_acc_id
    "683313688378.dkr.ecr.us-east-1.amazonaws.com/sagemaker-scikit-learn:0.23-1"
  = Normal "683313688378"%string.
Proof.
  exact (proj1 (proj2 image_acc_id_is_registry_account) "683313688378"%string
           "dkr.ecr.us-east-1.amazonaws.com/sagemaker-scikit-learn:0.23-1"%string
           eq_refl).
Defined.

(* ================================================================== *)
(** * Putting the label column first *)

Lemma slices_of_snoc {A : Type} (features : list A) (label : A) :
  last_slice (features ++ [label]) = [label] /\
  init_slice (features ++ [label]) = features.
Proof.
  unfold last_slice, init_slice. rewrite length_app. cbn [List.length].
  replace (List.length features + 1 - 1)%nat with (List.length features + 0)%nat
    by lia.
  split.
  - rewrite skipn_app, Nat.add_0_r, skipn_all, Nat.sub_diag. reflexivity.
  - rewrite firstn_app_2. cbn [firstn]. apply app_nil_r.
Qed.

(** X16.  The column order [feature_names[-1:] + feature_names[:-1]] keeps
    every column exactly once and moves the last one, the label, to the
    front, leaving the others in their order; on an empty list it is empty.
    For the Abalone columns the result starts with "Rings". *)
Theorem label_first_keeps_columns {A : Type} (names : list A) :
  Permutation (label_first names) names /\
  List.length (label_first names) = List.length names /\
  (forall features label,
     names = features ++ [label] -> label_first names = label :: features) /\
  (names = [] -> label_first names = []) /\
  label_first feature_names
    = ["Rings"; "Sex"; "Length"; "Diameter"; "Height"; "Whole weight";
       "Shucked weight"; "Viscera weight"; "Shell weight"]%string.
Proof.
  assert (Hperm : Permutation (label_first names) names).
  { unfold label_first, last_slice, init_slice.
    rewrite <- (firstn_skipn (List.length names - 1) names) at 5.
    apply Permutation_app_comm. }
  split; [exact Hperm|]. split; [now apply Permutation_length|].
  split; [|split].
  - intros features label ->. unfold label_first.
    destruct (slices_of_snoc features label) as [-> ->]. reflexivity.
  - intros ->. reflexivity.
  - reflexivity.
Qed.
